(** * scripts/test-frontend.py: the frontend test runner

    A shallow embedding of [run_command] and [main] of
    [scripts/test-frontend.py], and the properties of the runner and of its
    summary.

    The script is sequential Python with two effects: it writes to the
    console ([print] to [sys.stdout] and [sys.stderr]) and it runs external
    commands ([subprocess.run]).  Both are threaded through an explicit
    state; exceptions are the second component of a computation's result,
    so that [try]/[except] is an ordinary combinator and "propagates past
    [run_command]" is a statement about a value.

    [print] is taken to succeed.  The module changes into [PROJECT_ROOT]
    when it is loaded, before [main] is called: the state [main] starts from
    is the one after that call.

    [run_command] is embedded twice.  [run_command] is the function run on a
    console that takes every text, with a [subprocess.run] that raises
    nothing outside [Exception]; the driver, the summary and the other
    scripts are built on it.  [run_command_full] leaves both open: every
    [print] asks the console whether it raises, and [subprocess.run] may
    raise [KeyboardInterrupt].  [run_command_full_agrees] shows that the
    first is the second in that setting.  [test_frontend_script] puts the
    [os.chdir] of the module in front of [main]. *)

From Stdlib Require Import String Ascii List ZArith Bool Arith Lia Permutation.
From Stdlib Require Import DecimalString.
Import ListNotations.

Local Open Scope string_scope.
Local Open Scope list_scope.

(** ** Python strings *)

Module PyStr.

(** The two characters a Rocq literal cannot hold directly. *)
Definition nl : string := String (ascii_of_nat 10) EmptyString.
Definition dq : string := String (ascii_of_nat 34) EmptyString.

(** [s * n] on strings. *)
Fixpoint mul (s : string) (n : nat) : string :=
  match n with
  | O => EmptyString
  | S k => s ++ mul s k
  end.

(** Truth value of a string: [if s:] holds exactly for the non-empty ones. *)
Definition truthy (s : string) : bool :=
  match s with
  | EmptyString => false
  | String _ _ => true
  end.

(** [str(n)] / [{n}] in an f-string, for a non-negative integer. *)
Definition of_nat (n : nat) : string :=
  NilEmpty.string_of_uint (Nat.to_uint n).

End PyStr.

(** The directory the module changes into when it is loaded. *)
Definition PROJECT_ROOT : string := "/vercel/share/v0-project".

(** ** Exceptions

    The classes of the exceptions [subprocess.run] and [print] raise that
    derive from [Exception], with the part of the class tree above them.
    The classes that derive from [BaseException] alone come further down,
    with [run_command_full]. *)

Inductive ExcClass : Type :=
  | Exception
  | SubprocessError
  | TimeoutExpired
  | OSError
  | FileNotFoundError
  | NotADirectoryError
  | PermissionError
  | ValueError
  | UnicodeError
  | UnicodeDecodeError
  | UnicodeEncodeError
  | MemoryError.

Definition ExcClass_eqb (c d : ExcClass) : bool :=
  match c, d with
  | Exception, Exception
  | SubprocessError, SubprocessError
  | TimeoutExpired, TimeoutExpired
  | OSError, OSError
  | FileNotFoundError, FileNotFoundError
  | NotADirectoryError, NotADirectoryError
  | PermissionError, PermissionError
  | ValueError, ValueError
  | UnicodeError, UnicodeError
  | UnicodeDecodeError, UnicodeDecodeError
  | UnicodeEncodeError, UnicodeEncodeError
  | MemoryError, MemoryError => true
  | _, _ => false
  end.

(** The direct base class; [Exception] is the root of this part of the tree. *)
Definition base (c : ExcClass) : option ExcClass :=
  match c with
  | Exception => None
  | SubprocessError => Some Exception
  | TimeoutExpired => Some SubprocessError
  | OSError => Some Exception
  | FileNotFoundError => Some OSError
  | NotADirectoryError => Some OSError
  | PermissionError => Some OSError
  | ValueError => Some Exception
  | UnicodeError => Some ValueError
  | UnicodeDecodeError => Some UnicodeError
  | UnicodeEncodeError => Some UnicodeError
  | MemoryError => Some Exception
  end.

(** [issubclass c d], walking up at most [fuel] base classes. *)
Fixpoint issubclass_upto (fuel : nat) (c d : ExcClass) : bool :=
  ExcClass_eqb c d ||
  match fuel with
  | O => false
  | S k =>
      match base c with
      | Some b => issubclass_upto k b d
      | None => false
      end
  end.

(** The tree above has depth 3. *)
Definition issubclass : ExcClass -> ExcClass -> bool := issubclass_upto 3.

(** An exception object: its class and what [str(e)] gives. *)
Record PyExc : Type := mkExc {
  exc_class : ExcClass;
  exc_str : string
}.

Definition isinstance (e : PyExc) (c : ExcClass) : bool :=
  issubclass (exc_class e) c.

(** ** Results and the state of a run *)

Inductive PyResult (A : Type) : Type :=
  | Ret (a : A)
  | Raise (e : PyExc).

Arguments Ret {A} a.
Arguments Raise {A} e.

(** What [subprocess.run(..., capture_output=True, text=True)] returns. *)
Record CompletedProcess : Type := mkCompleted {
  returncode : Z;
  stdout : string;
  stderr : string
}.

(** ** Checks

    One entry of the checklist of [main]: the key under which the result is
    stored, the command line, and the description printed above its output. *)

Record Check : Type := mkCheck {
  check_name : string;
  check_cmd : string;
  check_description : string
}.

(** The nine checks of [main], in the order it runs them. *)
Definition declared_checks : list Check :=
  [ mkCheck "node_check"
      "node --version && npm --version"
      "Checking Node.js and npm installation";
    mkCheck "project_structure"
      ("ls -la | grep -E " ++ PyStr.dq
       ++ "package.json|tsconfig.json|tailwind.config|next.config"
       ++ PyStr.dq)
      "Checking project structure";
    mkCheck "env_check"
      ("test -f .env.local && echo " ++ PyStr.dq ++ "✓ .env.local found"
       ++ PyStr.dq ++ " || echo " ++ PyStr.dq ++ "✗ .env.local missing"
       ++ PyStr.dq)
      "Verifying environment configuration";
    mkCheck "deps_check"
      "npm list --depth=0 2>/dev/null | head -20"
      "Checking installed dependencies";
    mkCheck "lint"
      "npm run lint 2>&1 | head -50"
      "Running ESLint";
    mkCheck "build"
      "npm run build 2>&1 | tail -50"
      "Building Next.js project";
    mkCheck "build_output"
      ("test -d .next && echo " ++ PyStr.dq
       ++ "✓ .next build directory created" ++ PyStr.dq ++ " || echo "
       ++ PyStr.dq ++ "✗ Build directory missing" ++ PyStr.dq)
      "Verifying build output";
    mkCheck "api_services"
      ("ls -la services/api/ | grep -E " ++ PyStr.dq ++ "\.ts$"
       ++ PyStr.dq)
      "Checking API service files";
    mkCheck "types_check"
      ("test -f types/api.ts && wc -l types/api.ts && echo " ++ PyStr.dq
       ++ "✓ API types file valid" ++ PyStr.dq ++ " || echo " ++ PyStr.dq
       ++ "✗ Types file missing" ++ PyStr.dq)
      "Validating TypeScript types" ].

(** What of an execution decides the flow of control: the exit status of a
    process that completed, or the class of the exception raised. *)
Inductive Control : Type :=
  | Exited (status : Z)
  | Raised (c : ExcClass).

Definition control (r : PyResult CompletedProcess) : Control :=
  match r with
  | Ret p => Exited (returncode p)
  | Raise e => Raised (exc_class e)
  end.

(** The boolean [run_command] makes of a control outcome. *)
Definition verdict (c : Control) : bool :=
  match c with
  | Exited status => (status =? 0)%Z
  | Raised _ => false
  end.

(** ** A scripted executor

    An executor for running the definitions on concrete inputs: the world is
    the queue of the outcomes still to come, and each call of
    [subprocess.run] takes the next one.  Once the queue is empty every
    command exits 0 with no output. *)

Module Scripted.

Definition World : Type := list (PyResult CompletedProcess).

Definition silent (status : Z) : PyResult CompletedProcess :=
  Ret (mkCompleted status EmptyString EmptyString).

Definition subprocess_run (cmd : string) (t : Z) (w : World)
    : PyResult CompletedProcess * World :=
  match w with
  | [] => (silent 0, [])
  | r :: w' => (r, w')
  end.

(** The script in which the i-th command passes exactly when the i-th
    boolean says so. *)
Definition of_verdicts (bs : list bool) : World :=
  map (fun b : bool => silent (if b then 0 else 1)) bs.

Definition timeout : PyResult CompletedProcess :=
  Raise (mkExc TimeoutExpired
           "Command 'npm run build' timed out after 60 seconds").

Definition no_shell : PyResult CompletedProcess :=
  Raise (mkExc FileNotFoundError
           "[Errno 2] No such file or directory: '/bin/sh'").

End Scripted.

(** ** [scripts/git-push.py]: the commit message

    The text [main] of [git-push.py] commits with. *)

Definition commit_msg : string :=
  ("feat: Complete API integration with all 49 endpoints" ++ PyStr.nl
  ++ PyStr.nl
  ++ "Implemented comprehensive backend API integration for Me"
       ++ "di-Sync AI platform:" ++ PyStr.nl
  ++ PyStr.nl
  ++ "FEATURES:" ++ PyStr.nl
  ++ "- Users Module: Authentication, registration, email/phon"
       ++ "e verification (10 endpoints)" ++ PyStr.nl
  ++ "- Prescriptions: Create, upload, manage prescriptions wi"
       ++ "th image processing (7 endpoints)" ++ PyStr.nl
  ++ "- Medications: Track medications with intake logging and"
       ++ " side effects (6 endpoints)" ++ PyStr.nl
  ++ "- Reminders: Schedule and manage medication reminders (9"
       ++ " endpoints)" ++ PyStr.nl
  ++ "- Drugs: Search drug database with interactions and side"
       ++ " effects (5 endpoints)" ++ PyStr.nl
  ++ "- Doctors: Find and consult healthcare professionals (6 "
       ++ "endpoints)" ++ PyStr.nl
  ++ "- Voice: Audio transcription and text-to-speech synthesi"
       ++ "s (5 endpoints)" ++ PyStr.nl
  ++ "- Health: System health monitoring (1 endpoint)" ++ PyStr.nl
  ++ PyStr.nl
  ++ "CHANGES:" ++ PyStr.nl
  ++ "- Enhanced services/api/voice.ts with complete audio pro"
       ++ "cessing" ++ PyStr.nl
  ++ "- Updated types/api.ts with all request/response type de"
       ++ "finitions" ++ PyStr.nl
  ++ "- Added .env.local with backend URL configuration" ++ PyStr.nl
  ++ "- Created comprehensive API_DOCUMENTATION.md with usage "
       ++ "patterns" ++ PyStr.nl
  ++ "- Added API test verification script (verify-api-endpoin"
       ++ "ts.js)" ++ PyStr.nl
  ++ "- Updated README with API integration guide and deployme"
       ++ "nt instructions" ++ PyStr.nl
  ++ "- Created .env.example template for environment setup" ++ PyStr.nl
  ++ PyStr.nl
  ++ "TESTING:" ++ PyStr.nl
  ++ "- All endpoints verified against live backend (https://o"
       ++ "live-backend-bly2.onrender.com)" ++ PyStr.nl
  ++ "- Health checks passing" ++ PyStr.nl
  ++ "- Authentication patterns confirmed" ++ PyStr.nl
  ++ "- Ready for production deployment" ++ PyStr.nl
  ++ PyStr.nl
  ++ "BACKEND URL: https://olive-backend-bly2.onrender.com/api")%string.

(** ** A recording executor

    As [Scripted], and the world also keeps the command lines in the order
    they were run.  It serves the calls of all three scripts: the timeout,
    the working directory and the capture flag do not change what it
    does. *)

Module Recorded.

Definition World : Type :=
  (list (PyResult CompletedProcess) * list string)%type.

Definition next (cmd : string) (w : World)
    : PyResult CompletedProcess * World :=
  match fst w with
  | [] => (Scripted.silent 0, ([], snd w ++ [cmd]))
  | r :: queue => (r, (queue, snd w ++ [cmd]))
  end.

Definition subprocess_run (cmd : string) (t : Z) (w : World)
    : PyResult CompletedProcess * World :=
  next cmd w.

Definition subprocess_run_in (cmd cwd : string) (capture : bool) (w : World)
    : PyResult CompletedProcess * World :=
  next cmd w.

Definition subprocess_run_argv (argv : list string) (w : World)
    : PyResult CompletedProcess * World :=
  next (String.concat " " argv) w.

(** [os.chdir] into a directory that is there, and into one that is not. *)
Definition os_chdir (path : string) (w : World) : PyResult unit * World :=
  (Ret tt, w).

Definition os_chdir_missing (path : string) (w : World)
    : PyResult unit * World :=
  (Raise (mkExc FileNotFoundError
            ("[Errno 2] No such file or directory: '" ++ path ++ "'")), w).

(** A completed process with the given status and captured text. *)
Definition exited (status : Z) (out err : string)
    : PyResult CompletedProcess :=
  Ret (mkCompleted status out err).

End Recorded.

(** ** Exceptions outside [Exception], and a console that can refuse

    [except Exception] lets through what derives from [BaseException]
    alone: [KeyboardInterrupt], which [subprocess.run] raises again after it
    has killed the child, [SystemExit] and [GeneratorExit].  The classes
    above are the ones under [Exception]; [Derived] puts them beside these
    three. *)

Inductive BaseExcClass : Type :=
  | KeyboardInterrupt
  | SystemExit
  | GeneratorExit
  | Derived (c : ExcClass).

Record BaseExc : Type := mkBaseExc {
  bexc_class : BaseExcClass;
  bexc_str : string
}.

(** [isinstance(e, c)] for a class [c] under [Exception]. *)
Definition isinstance_any (e : BaseExc) (c : ExcClass) : bool :=
  match bexc_class e with
  | Derived d => issubclass d c
  | KeyboardInterrupt | SystemExit | GeneratorExit => false
  end.

Definition derived (e : PyExc) : BaseExc :=
  mkBaseExc (Derived (exc_class e)) (exc_str e).

Inductive PyOutcome (A : Type) : Type :=
  | Returned (a : A)
  | Raising (e : BaseExc).

Arguments Returned {A} a.
Arguments Raising {A} e.

Definition lift {A : Type} (r : PyResult A) : PyOutcome A :=
  match r with
  | Ret a => Returned a
  | Raise e => Raising (derived e)
  end.

(** The boolean a call returned, if it returned. *)
Definition outcome_bool (r : PyOutcome bool) : option bool :=
  match r with
  | Returned b => Some b
  | Raising _ => None
  end.

(** The control outcome of an execution, with every class of exception. *)
Inductive ControlAny : Type :=
  | ExitedWith (status : Z)
  | RaisedAny (c : BaseExcClass).

Definition control_any (r : PyOutcome CompletedProcess) : ControlAny :=
  match r with
  | Returned p => ExitedWith (returncode p)
  | Raising e => RaisedAny (bexc_class e)
  end.

(** The two streams [print] writes to. *)
Inductive Stream : Type :=
  | Stdout
  | Stderr.

(** An executor that raises what the given one raises, and a console that
    takes every text: the setting of the definitions of [Section Runner]
    that have no [_full] in their name. *)
Definition lift_run {W : Type}
    (run : string -> Z -> W -> PyResult CompletedProcess * W)
    (cmd : string) (t : Z) (w : W) : PyOutcome CompletedProcess * W :=
  (lift (fst (run cmd t w)), snd (run cmd t w)).

Definition takes_every_text {W : Type} (st : Stream) (text : string) (w : W)
    : option BaseExc :=
  None.

(** ** A scripted executor that can be interrupted, and an ASCII console *)

Module Faulty.

Definition World : Type := list (PyOutcome CompletedProcess).

Definition subprocess_run_any (cmd : string) (t : Z) (w : World)
    : PyOutcome CompletedProcess * World :=
  match w with
  | [] => (Returned (mkCompleted 0 EmptyString EmptyString), [])
  | r :: w' => (r, w')
  end.

(** A completed process with the given status and captured text. *)
Definition exited (status : Z) (out err : string)
    : PyOutcome CompletedProcess :=
  Returned (mkCompleted status out err).

(** Ctrl-C while the command runs. *)
Definition interrupted : PyOutcome CompletedProcess :=
  Raising (mkBaseExc KeyboardInterrupt EmptyString).

(** The shell itself is missing. *)
Definition no_shell : PyOutcome CompletedProcess :=
  Raising (mkBaseExc (Derived FileNotFoundError)
             "[Errno 2] No such file or directory: '/bin/sh'").

(** A text of bytes below 128. *)
Fixpoint is_ascii (text : string) : bool :=
  match text with
  | EmptyString => true
  | String (Ascii _ _ _ _ _ _ _ high) rest => negb high && is_ascii rest
  end.

(** The console of a run with [PYTHONIOENCODING=ascii]: [print] raises
    [UnicodeEncodeError] for a text with any other character. *)
Definition ascii_only (st : Stream) (text : string) (w : World)
    : option BaseExc :=
  if is_ascii text then None
  else Some (mkBaseExc (Derived UnicodeEncodeError)
               ("'ascii' codec can't encode character: "
                ++ "ordinal not in range(128)")).

End Faulty.

Section Runner.

(** The outside world the commands act on, and [subprocess.run] itself:
    given the command line and the timeout it returns a completed process
    or raises, and leaves a new world behind. *)
Variable World : Type.
Variable subprocess_run :
  string -> Z -> World -> PyResult CompletedProcess * World.

(** The console holds what was printed, one entry per [print] call, oldest
    first. *)
Record State : Type := mkState {
  world : World;
  sys_stdout : list string;
  sys_stderr : list string
}.

Definition M (A : Type) : Type := State -> PyResult A * State.

Definition ret {A : Type} (a : A) : M A := fun s => (Ret a, s).

Definition raise {A : Type} (e : PyExc) : M A := fun s => (Raise e, s).

Definition bind {A B : Type} (m : M A) (k : A -> M B) : M B :=
  fun s =>
    match m s with
    | (Ret a, s') => k a s'
    | (Raise e, s') => (Raise e, s')
    end.

Notation "x <- m ;; k" := (bind m (fun x => k))
  (at level 100, m at next level, right associativity).
Notation "m ;; k" := (bind m (fun _ => k))
  (at level 100, right associativity).

(** [print(s)] and [print(s, file=sys.stderr)]. *)
Definition print (s : string) : M unit :=
  fun st => (Ret tt, mkState (world st) (sys_stdout st ++ [s]) (sys_stderr st)).

Definition print_err (s : string) : M unit :=
  fun st => (Ret tt, mkState (world st) (sys_stdout st) (sys_stderr st ++ [s])).

(** [if c: body] with no [else]. *)
Definition when (c : bool) (body : M unit) : M unit :=
  if c then body else ret tt.

(** The call [subprocess.run(cmd, shell=True, capture_output=True,
    text=True, timeout=t)]. *)
Definition run (cmd : string) (t : Z) : M CompletedProcess :=
  fun st =>
    let (r, w) := subprocess_run cmd t (world st) in
    (r, mkState w (sys_stdout st) (sys_stderr st)).

(** [try: body except C1 ...: h1 except C2 ...: h2]: the first clause whose
    class the exception is an instance of handles it; with no such clause
    the exception goes on to the caller. *)
Fixpoint find_handler {A : Type} (e : PyExc)
    (clauses : list (ExcClass * (PyExc -> M A))) : option (PyExc -> M A) :=
  match clauses with
  | [] => None
  | (c, h) :: rest => if isinstance e c then Some h else find_handler e rest
  end.

Definition try_except {A : Type} (body : M A)
    (clauses : list (ExcClass * (PyExc -> M A))) : M A :=
  fun s =>
    match body s with
    | (Ret a, s') => (Ret a, s')
    | (Raise e, s') =>
        match find_handler e clauses with
        | Some h => h e s'
        | None => (Raise e, s')
        end
    end.

(** ** [run_command]

    The function on a console that takes every text, with a
    [subprocess.run] that raises nothing outside [Exception].
    [run_command_full], further down, is the function without these two
    conditions. *)

Definition rule : string := PyStr.mul "=" 60.

Definition run_command (cmd description : string) : M bool :=
  print (PyStr.nl ++ rule) ;;
  print ("[TEST] " ++ description) ;;
  print rule ;;
  try_except
    (result <- run cmd 60 ;;
     when (PyStr.truthy (stdout result)) (print (stdout result)) ;;
     when (PyStr.truthy (stderr result)) (print_err (stderr result)) ;;
     ret (returncode result =? 0)%Z)
    [ (TimeoutExpired,
       fun _ => print "ERROR: Command timed out" ;; ret false);
      (Exception,
       fun e => print ("ERROR: " ++ exc_str e) ;; ret false) ].

(** ** The [results] dict

    A Python dict keeps its keys in insertion order and holds each key once:
    assigning to a key already present replaces the value where it stands. *)

Definition dict : Type := list (string * bool).

Fixpoint dict_set (k : string) (v : bool) (d : dict) : dict :=
  match d with
  | [] => [(k, v)]
  | (k', v') :: rest =>
      if String.eqb k' k then (k', v) :: rest
      else (k', v') :: dict_set k v rest
  end.

Definition dict_keys (d : dict) : list string := map fst d.
Definition dict_values (d : dict) : list bool := map snd d.
Definition dict_items (d : dict) : list (string * bool) := d.
Definition dict_len (d : dict) : nat := length d.

(** ** The summary (the end of [main], from [# Print summary] on) *)

(** [sum(1 for v in results.values() if v)] *)
Definition passed (results : dict) : nat :=
  list_sum (map (fun _ => 1) (filter (fun v : bool => v) (dict_values results))).

(** [len(results)] *)
Definition total (results : dict) : nat := dict_len results.

Definition status_line (test_name : string) (result : bool) : string :=
  let status := if result then "✓ PASS" else "✗ FAIL" in
  status ++ " - " ++ test_name.

(** [for test_name, result in results.items(): print(...)] *)
Fixpoint print_statuses (items : list (string * bool)) : M unit :=
  match items with
  | [] => ret tt
  | (test_name, result) :: rest =>
      print (status_line test_name result) ;; print_statuses rest
  end.

Definition tally_line (p t : nat) : string :=
  PyStr.nl ++ "Total: " ++ PyStr.of_nat p ++ "/" ++ PyStr.of_nat t
  ++ " tests passed".

Definition success_banner : string :=
  PyStr.nl ++ "✓ FRONTEND BUILD SUCCESSFUL - Ready for deployment".

Definition failure_banner : string :=
  PyStr.nl ++ "✗ Some tests failed - Check output above".

Definition summary (results : dict) : M Z :=
  print (PyStr.nl ++ rule) ;;
  print "TEST SUMMARY" ;;
  print rule ;;
  let passed := passed results in
  let total := total results in
  print_statuses (dict_items results) ;;
  print (tally_line passed total) ;;
  if (passed =? total)%nat then
    print success_banner ;; ret 0%Z
  else
    print failure_banner ;; ret 1%Z.

(** ** [main] *)

Definition header : M unit :=
  print (PyStr.nl ++ rule) ;;
  print "OLIVE AI - FRONTEND TEST SUITE" ;;
  print rule.

Definition main : M Z :=
  header ;;
  let results : dict := [] in
  (* 1. Check Node.js installation *)
  r <- run_command
         "node --version && npm --version"
         "Checking Node.js and npm installation" ;;
  let results := dict_set "node_check" r results in
  (* 2. Check project structure *)
  r <- run_command
         ("ls -la | grep -E " ++ PyStr.dq
          ++ "package.json|tsconfig.json|tailwind.config|next.config"
          ++ PyStr.dq)
         "Checking project structure" ;;
  let results := dict_set "project_structure" r results in
  (* 3. Verify environment configuration *)
  r <- run_command
         ("test -f .env.local && echo " ++ PyStr.dq ++ "✓ .env.local found"
          ++ PyStr.dq ++ " || echo " ++ PyStr.dq ++ "✗ .env.local missing"
          ++ PyStr.dq)
         "Verifying environment configuration" ;;
  let results := dict_set "env_check" r results in
  (* 4. Check dependencies *)
  r <- run_command
         "npm list --depth=0 2>/dev/null | head -20"
         "Checking installed dependencies" ;;
  let results := dict_set "deps_check" r results in
  (* 5. Run linter *)
  r <- run_command
         "npm run lint 2>&1 | head -50"
         "Running ESLint" ;;
  let results := dict_set "lint" r results in
  (* 6. Build the project *)
  r <- run_command
         "npm run build 2>&1 | tail -50"
         "Building Next.js project" ;;
  let results := dict_set "build" r results in
  (* 7. Verify build output *)
  r <- run_command
         ("test -d .next && echo " ++ PyStr.dq
          ++ "✓ .next build directory created" ++ PyStr.dq ++ " || echo "
          ++ PyStr.dq ++ "✗ Build directory missing" ++ PyStr.dq)
         "Verifying build output" ;;
  let results := dict_set "build_output" r results in
  (* 8. Check API service files *)
  r <- run_command
         ("ls -la services/api/ | grep -E " ++ PyStr.dq ++ "\.ts$"
          ++ PyStr.dq)
         "Checking API service files" ;;
  let results := dict_set "api_services" r results in
  (* 9. Validate TypeScript types *)
  r <- run_command
         ("test -f types/api.ts && wc -l types/api.ts && echo " ++ PyStr.dq
          ++ "✓ API types file valid" ++ PyStr.dq ++ " || echo " ++ PyStr.dq
          ++ "✗ Types file missing" ++ PyStr.dq)
         "Validating TypeScript types" ;;
  let results := dict_set "types_check" r results in
  summary results.

(** [sys.exit(main())]: the status the process ends with.  An exception that
    reached the top level would end it with a traceback and status 1. *)
Definition sys_exit (r : PyResult Z) : Z :=
  match r with
  | Ret code => code
  | Raise _ => 1%Z
  end.

Definition exit_code (s : State) : Z := sys_exit (fst (main s)).

(** ** The driver as a loop

    [main] is nine repetitions of one step, [results[name] =
    run_command(cmd, description)], followed by the summary.  [checks_then]
    is that step over a list of checks, with what comes after it as [k]. *)

Fixpoint checks_then {A : Type} (cs : list Check) (results : dict)
    (k : dict -> M A) : M A :=
  match cs with
  | [] => k results
  | c :: rest =>
      r <- run_command (check_cmd c) (check_description c) ;;
      checks_then rest (dict_set (check_name c) r results) k
  end.

Definition main_of (cs : list Check) : M Z :=
  header ;; checks_then cs [] summary.

(** The dict the checks leave behind. *)
Definition collect (cs : list Check) (results : dict) : M dict :=
  checks_then cs results ret.

(** What [run_command] returned for each check, in the order they ran. *)
Fixpoint outcomes (cs : list Check) : M (list bool) :=
  match cs with
  | [] => ret []
  | c :: rest =>
      r <- run_command (check_cmd c) (check_description c) ;;
      rs <- outcomes rest ;;
      ret (r :: rs)
  end.

(** [results[k]], where the key is present. *)
Fixpoint dict_get (k : string) (d : dict) : option bool :=
  match d with
  | [] => None
  | (k', v) :: rest => if String.eqb k' k then Some v else dict_get k rest
  end.

(** Storing a list of results one after the other. *)
Fixpoint dict_set_all (kvs : list (string * bool)) (d : dict) : dict :=
  match kvs with
  | [] => d
  | (k, v) :: rest => dict_set_all rest (dict_set k v d)
  end.

(** The state after [n] more lines on [sys.stdout]. *)
Definition printed (s : State) (lines : list string) : State :=
  mkState (world s) (sys_stdout s ++ lines) (sys_stderr s).

(** The three lines [run_command] starts with. *)
Definition test_header (description : string) : list string :=
  [(PyStr.nl ++ rule)%string; ("[TEST] " ++ description)%string; rule].

(** The three lines [main] starts with. *)
Definition header_lines : list string :=
  [(PyStr.nl ++ rule)%string; "OLIVE AI - FRONTEND TEST SUITE"; rule].

(** What [main] returns for a given dict of results. *)
Definition code_of (results : dict) : Z :=
  if (passed results =? total results)%nat then 0%Z else 1%Z.

(** The dict after the checks [cs] returned [rs], starting from an empty
    one. *)
Definition results_of (cs : list Check) (rs : list bool) : dict :=
  dict_set_all (combine (map check_name cs) rs) [].

(** The lines of the summary, for a given dict. *)
Definition summary_lines (results : dict) : list string :=
  [(PyStr.nl ++ rule)%string; "TEST SUMMARY"; rule]
  ++ map (fun item => status_line (fst item) (snd item)) (dict_items results)
  ++ [tally_line (passed results) (total results);
      if (passed results =? total results)%nat
      then success_banner else failure_banner].

(** ** What a run of the checks does to the world

    The commands of a checklist, run once each and in order with the
    timeout of [run_command]. *)

Fixpoint world_after (cs : list Check) (w : World) : World :=
  match cs with
  | [] => w
  | c :: rest => world_after rest (snd (subprocess_run (check_cmd c) 60 w))
  end.

(** ** [scripts/git-push.py]

    [subprocess.run(cmd, shell=True, cwd=cwd)], with
    [capture_output=True, text=True] when the flag is set.  Without them the
    [stdout] and [stderr] of the result are [None]; the one call made that
    way reads the exit status only. *)
Variable subprocess_run_in :
  string -> string -> bool -> World -> PyResult CompletedProcess * World.

Definition run_in (cmd cwd : string) (capture : bool) : M CompletedProcess :=
  fun st =>
    let (r, w) := subprocess_run_in cmd cwd capture (world st) in
    (r, mkState w (sys_stdout st) (sys_stderr st)).

(** [run_command] of [git-push.py], in the setting of [run_command] above:
    the console takes every text and [subprocess.run] raises nothing outside
    [Exception]. *)
Definition git_push_run_command (cmd description : string) : M bool :=
  print ("[v0] " ++ description ++ "...") ;;
  try_except
    (result <- run_in cmd "/vercel/share/v0-project" true ;;
     if (returncode result =? 0)%Z then
       (print ("[v0] ✓ " ++ description ++ " - SUCCESS") ;;
        when (PyStr.truthy (stdout result)) (print (stdout result)) ;;
        ret true)
     else
       (print ("[v0] ✗ " ++ description ++ " - FAILED") ;;
        print ("Error: " ++ stderr result) ;;
        ret false))
    [ (Exception,
       fun e => print ("[v0] ✗ Exception: " ++ exc_str e) ;; ret false) ].

(** [main] of [git-push.py].  A [return] in the middle of the function is
    the end of the branch it stands in. *)
Definition git_push_main : M bool :=
  print "[v0] Starting production deployment to GitHub..." ;;
  (* Git status *)
  git_push_run_command "git status" "Checking git status" ;;
  (* Add all changes *)
  staged <- git_push_run_command "git add ." "Staging all changes" ;;
  if negb staged then ret false
  else
    (* Check if there are changes to commit *)
    result <- run_in "git diff --cached --quiet" "/vercel/share/v0-project"
                false ;;
    if negb (returncode result =? 0)%Z then
      committed <- git_push_run_command
                     ("git commit -m " ++ PyStr.dq ++ commit_msg ++ PyStr.dq)
                     "Committing changes" ;;
      if negb committed then ret false
      else
        (* Push to GitHub *)
        pushed <- git_push_run_command
                    "git push origin medi-sync-ai-api" "Pushing to GitHub" ;;
        (if negb pushed then
           print "[v0] Push failed - attempting alternate push method" ;;
           git_push_run_command
             "git push --set-upstream origin medi-sync-ai-api"
             "Setting upstream and pushing" ;;
           ret tt
         else ret tt) ;;
        print "[v0] ✓ Production deployment complete!" ;;
        print
          "[v0] Changes pushed to: https://github.com/Astronomox/OliveAIWEB" ;;
        ret true
    else
      (print "[v0] No changes to commit" ;;
       ret true).

(** [success = main(); sys.exit(0 if success else 1)] *)
Definition git_push_exit_code (s : State) : Z :=
  match fst (git_push_main s) with
  | Ret success => if success then 0%Z else 1%Z
  | Raise _ => 1%Z
  end.

(** The calls of [main] of [git-push.py], on the world alone: the call
    [run_command] makes for a command line, whether [run_command] counts it
    as a success, and the world it leaves; the call that looks for staged
    changes; the command line of the commit. *)
Definition git (cmd : string) (w : World)
    : PyResult CompletedProcess * World :=
  subprocess_run_in cmd "/vercel/share/v0-project" true w.

Definition git_ok (cmd : string) (w : World) : bool :=
  verdict (control (fst (git cmd w))).

Definition git_then (cmd : string) (w : World) : World := snd (git cmd w).

Definition git_diff (w : World) : PyResult CompletedProcess * World :=
  subprocess_run_in "git diff --cached --quiet" "/vercel/share/v0-project"
    false w.

Definition commit_command : string :=
  "git commit -m " ++ PyStr.dq ++ commit_msg ++ PyStr.dq.

(** The world once [git status] and [git add .] have run. *)
Definition staged_world (w : World) : World :=
  git_then "git add ." (git_then "git status" w).

(** ** [scripts/verify-build.py]

    [os.chdir(path)], and [subprocess.run(argv, capture_output=True,
    text=True)] with the command given as a list of arguments. *)
Variable os_chdir : string -> World -> PyResult unit * World.
Variable subprocess_run_argv :
  list string -> World -> PyResult CompletedProcess * World.

Definition chdir (path : string) : M unit :=
  fun st =>
    let (r, w) := os_chdir path (world st) in
    (r, mkState w (sys_stdout st) (sys_stderr st)).

Definition run_argv (argv : list string) : M CompletedProcess :=
  fun st =>
    let (r, w) := subprocess_run_argv argv (world st) in
    (r, mkState w (sys_stdout st) (sys_stderr st)).

(** The whole of [verify-build.py]; the value is the status the script ends
    with where no exception stops it: 1 from [exit(1)], 0 when it reaches its
    last line. *)
Definition verify_build : M Z :=
  chdir "/vercel/share/v0-project" ;;
  print "[BUILD TEST] Starting Next.js build verification..." ;;
  print (PyStr.mul "=" 60) ;;
  result <- run_argv ["npm"; "run"; "build"] ;;
  print (stdout result) ;;
  when (PyStr.truthy (stderr result))
    (print ("STDERR:" ++ " " ++ stderr result)) ;;
  if (returncode result =? 0)%Z then
    (print (PyStr.mul "=" 60) ;;
     print "[BUILD TEST] ✅ BUILD SUCCESSFUL - No TypeScript errors!" ;;
     print (PyStr.mul "=" 60) ;;
     ret 0%Z)
  else
    (print (PyStr.mul "=" 60) ;;
     print "[BUILD TEST] ❌ BUILD FAILED" ;;
     print (PyStr.mul "=" 60) ;;
     ret 1%Z).

Definition verify_build_exit_code (s : State) : Z :=
  sys_exit (fst (verify_build s)).

(** ** [test-frontend.py] as a whole script

    The module changes into [PROJECT_ROOT] when it is loaded, and then
    [sys.exit(main())] ends the process. *)
Definition test_frontend_script : M Z :=
  chdir PROJECT_ROOT ;;
  main.

Definition test_frontend_exit_code (s : State) : Z :=
  sys_exit (fst (test_frontend_script s)).

(** ** [run_command] with the console and every exception

    [subprocess.run] as it is, [KeyboardInterrupt] included, and the
    console: whether [print] of a text to a stream raises, and what. *)
Variable subprocess_run_any :
  string -> Z -> World -> PyOutcome CompletedProcess * World.
Variable print_raises : Stream -> string -> World -> option BaseExc.

Definition IO (A : Type) : Type := State -> PyOutcome A * State.

Definition io_ret {A : Type} (a : A) : IO A := fun s => (Returned a, s).

Definition io_bind {A B : Type} (m : IO A) (k : A -> IO B) : IO B :=
  fun s =>
    match m s with
    | (Returned a, s') => k a s'
    | (Raising e, s') => (Raising e, s')
    end.

Notation "x <~ m ;; k" := (io_bind m (fun x => k))
  (at level 100, m at next level, right associativity).
Notation "m ~; k" := (io_bind m (fun _ => k))
  (at level 100, right associativity).

(** [print(text)] and [print(text, file=sys.stderr)]: the text is on the
    stream unless the console raises. *)
Definition io_print_to (st : Stream) (text : string) : IO unit :=
  fun s =>
    match print_raises st text (world s) with
    | Some e => (Raising e, s)
    | None =>
        (Returned tt,
         match st with
         | Stdout => mkState (world s) (sys_stdout s ++ [text]) (sys_stderr s)
         | Stderr => mkState (world s) (sys_stdout s) (sys_stderr s ++ [text])
         end)
    end.

Definition io_print (text : string) : IO unit := io_print_to Stdout text.

Definition io_print_err (text : string) : IO unit := io_print_to Stderr text.

Definition io_when (c : bool) (body : IO unit) : IO unit :=
  if c then body else io_ret tt.

Definition io_run (cmd : string) (t : Z) : IO CompletedProcess :=
  fun st =>
    let (r, w) := subprocess_run_any cmd t (world st) in
    (r, mkState w (sys_stdout st) (sys_stderr st)).

Fixpoint io_find_handler {A : Type} (e : BaseExc)
    (clauses : list (ExcClass * (BaseExc -> IO A)))
    : option (BaseExc -> IO A) :=
  match clauses with
  | [] => None
  | (c, h) :: rest =>
      if isinstance_any e c then Some h else io_find_handler e rest
  end.

Definition io_try_except {A : Type} (body : IO A)
    (clauses : list (ExcClass * (BaseExc -> IO A))) : IO A :=
  fun s =>
    match body s with
    | (Returned a, s') => (Returned a, s')
    | (Raising e, s') =>
        match io_find_handler e clauses with
        | Some h => h e s'
        | None => (Raising e, s')
        end
    end.

(** The [try] statement of [run_command]. *)
Definition try_block (cmd : string) : IO bool :=
  io_try_except
    (result <~ io_run cmd 60 ;;
     io_when (PyStr.truthy (stdout result)) (io_print (stdout result)) ~;
     io_when (PyStr.truthy (stderr result)) (io_print_err (stderr result)) ~;
     io_ret (returncode result =? 0)%Z)
    [ (TimeoutExpired,
       fun _ => io_print "ERROR: Command timed out" ~; io_ret false);
      (Exception,
       fun e => io_print ("ERROR: " ++ bexc_str e) ~; io_ret false) ].

Definition run_command_full (cmd description : string) : IO bool :=
  io_print (PyStr.nl ++ rule) ~;
  io_print ("[TEST] " ++ description) ~;
  io_print rule ~;
  try_block cmd.

(** The step of [main], [results[name] = run_command(cmd, description)],
    over a list of checks. *)
Fixpoint checks_then_full {A : Type} (cs : list Check) (results : dict)
    (k : dict -> IO A) : IO A :=
  match cs with
  | [] => k results
  | c :: rest =>
      r <~ run_command_full (check_cmd c) (check_description c) ;;
      checks_then_full rest (dict_set (check_name c) r results) k
  end.

(** The line an [except] clause of [run_command] prints for [e]. *)
Definition handler_line (e : BaseExc) : string :=
  if isinstance_any e TimeoutExpired then "ERROR: Command timed out"
  else "ERROR: " ++ bexc_str e.

(** What the [except] clauses of [run_command] make of [e] in state [st]. *)
Definition handle (e : BaseExc) (st : State) : PyOutcome bool * State :=
  if isinstance_any e Exception
  then (io_print (handler_line e) ~; io_ret false) st
  else (Raising e, st).

(** The console takes the three lines [run_command] starts with. *)
Definition header_printed (description : string) (w : World) : Prop :=
  Forall (fun line => print_raises Stdout line w = None)
    (test_header description).

(** The console takes the captured text of [p], where there is any. *)
Definition output_printed (p : CompletedProcess) (w : World) : Prop :=
  (PyStr.truthy (stdout p) = true -> print_raises Stdout (stdout p) w = None)
  /\ (PyStr.truthy (stderr p) = true
      -> print_raises Stderr (stderr p) w = None).

(** The console takes what [run_command] has to say about the outcome [r]
    of the command: the captured text, or the line of the [except]
    clause. *)
Definition report_printed (r : PyOutcome CompletedProcess) (w : World)
    : Prop :=
  match r with
  | Returned p => output_printed p w
  | Raising e => print_raises Stdout (handler_line e) w = None
  end.

(** [e] is raised inside the [try] of [run_command] for [cmd], run in world
    [w]: by [subprocess.run], or by a [print] of the captured text. *)
Definition raised_in_try (cmd : string) (w : World) (e : BaseExc) : Prop :=
  match subprocess_run_any cmd 60 w with
  | (Raising e', _) => e' = e
  | (Returned p, w') =>
      (PyStr.truthy (stdout p) = true
       /\ print_raises Stdout (stdout p) w' = Some e)
      \/ (PyStr.truthy (stderr p) = true
          /\ print_raises Stderr (stderr p) w' = Some e)
  end.

(** Unfolds [run_command] up to the call of [subprocess.run], whose outcome
    is the equation [H]. *)
Ltac run_command_steps H :=
  unfold run_command, bind, try_except, run, print, print_err, when, ret,
    test_header;
  cbn [world sys_stdout sys_stderr fst snd];
  rewrite H;
  cbn [world sys_stdout sys_stderr fst snd find_handler].

(** One call of [run_command] of [git-push.py] in a goal about [main]:
    [effect] says what the call returns and does. *)
Ltac git_step effect s' Hw He :=
  match goal with
  | |- context [git_push_run_command ?c ?d ?st] =>
      let out := fresh "out" in
      let E := fresh "E" in
      let Ho := fresh "Ho" in
      destruct (effect c d st) as (s' & out & E & Hw & He & Ho);
      rewrite E; cbv beta iota
  end.

(** * Properties *)

(** ** The exception classes *)

Lemma isinstance_Exception (e : PyExc) : isinstance e Exception = true.
Proof. destruct e as [c msg]; destruct c; reflexivity. Qed.

Lemma isinstance_TimeoutExpired (e : PyExc) :
  isinstance e TimeoutExpired = true <-> exc_class e = TimeoutExpired.
Proof.
  destruct e as [c msg]; destruct c; simpl; split; intro H;
    solve [reflexivity | discriminate H].
Qed.

(** ** [run_command], case by case *)

Lemma run_command_completed (cmd description : string) (s : State)
    (p : CompletedProcess) (w : World) :
  subprocess_run cmd 60 (world s) = (Ret p, w) ->
  run_command cmd description s =
    (Ret (returncode p =? 0)%Z,
     mkState w
       (sys_stdout s ++ test_header description
          ++ (if PyStr.truthy (stdout p) then [stdout p] else []))
       (sys_stderr s
          ++ (if PyStr.truthy (stderr p) then [stderr p] else []))).
Proof.
  intro H. run_command_steps H.
  destruct (PyStr.truthy (stdout p)), (PyStr.truthy (stderr p));
    cbn [world sys_stdout sys_stderr];
    rewrite <- ?app_assoc, ?app_nil_r; reflexivity.
Qed.

Lemma run_command_timeout (cmd description : string) (s : State)
    (e : PyExc) (w : World) :
  subprocess_run cmd 60 (world s) = (Raise e, w) ->
  isinstance e TimeoutExpired = true ->
  run_command cmd description s =
    (Ret false,
     mkState w
       (sys_stdout s ++ test_header description ++ ["ERROR: Command timed out"])
       (sys_stderr s)).
Proof.
  intros H Ht. run_command_steps H. rewrite Ht.
  cbn [world sys_stdout sys_stderr].
  rewrite <- ?app_assoc; reflexivity.
Qed.

Lemma run_command_exception (cmd description : string) (s : State)
    (e : PyExc) (w : World) :
  subprocess_run cmd 60 (world s) = (Raise e, w) ->
  isinstance e TimeoutExpired = false ->
  run_command cmd description s =
    (Ret false,
     mkState w
       (sys_stdout s ++ test_header description
          ++ [("ERROR: " ++ exc_str e)%string])
       (sys_stderr s)).
Proof.
  intros H Ht. run_command_steps H. rewrite Ht, isinstance_Exception.
  cbn [world sys_stdout sys_stderr].
  rewrite <- ?app_assoc; reflexivity.
Qed.

(** [run_command] returns, and what it returns is decided by the control
    outcome of [subprocess.run]. *)
Lemma run_command_returns (cmd description : string) (s : State) :
  exists s',
    run_command cmd description s =
      (Ret (verdict (control (fst (subprocess_run cmd 60 (world s))))), s')
    /\ world s' = snd (subprocess_run cmd 60 (world s)).
Proof.
  destruct (subprocess_run cmd 60 (world s)) as [[p | e] w] eqn:H.
  - eexists; split; [apply (run_command_completed _ _ _ _ _ H) | reflexivity].
  - destruct (isinstance e TimeoutExpired) eqn:Ht.
    + eexists; split;
        [apply (run_command_timeout _ _ _ _ _ H Ht) | reflexivity].
    + eexists; split;
        [apply (run_command_exception _ _ _ _ _ H Ht) | reflexivity].
Qed.

(** ** The dict *)

Lemma dict_set_fresh (k : string) (v : bool) (d : dict) :
  ~ In k (dict_keys d) -> dict_set k v d = d ++ [(k, v)].
Proof.
  induction d as [| [k' v'] d IH]; intro Hk; [reflexivity |].
  cbn [dict_set]. destruct (String.eqb_spec k' k) as [-> | Hne].
  - exfalso. apply Hk. now left.
  - cbn [app]. rewrite IH; [reflexivity |].
    intro Hin. apply Hk. now right.
Qed.

Lemma dict_set_all_fresh (kvs : list (string * bool)) (d : dict) :
  NoDup (dict_keys d ++ map fst kvs) -> dict_set_all kvs d = d ++ kvs.
Proof.
  revert d. induction kvs as [| [k v] kvs IH]; intros d Hnd.
  - cbn [dict_set_all]. now rewrite app_nil_r.
  - cbn [dict_set_all map fst] in *.
    assert (Hk : ~ In k (dict_keys d)).
    { apply NoDup_remove_2 in Hnd. intro Hin. apply Hnd.
      apply in_or_app. now left. }
    rewrite (dict_set_fresh _ _ _ Hk), IH.
    + now rewrite <- app_assoc.
    + unfold dict_keys in *. rewrite map_app, <- app_assoc. exact Hnd.
Qed.

Lemma dict_get_set (k : string) (v : bool) (d : dict) :
  dict_get k (dict_set k v d) = Some v.
Proof.
  induction d as [| [k' v'] d IH]; cbn [dict_set dict_get].
  - now rewrite String.eqb_refl.
  - destruct (String.eqb k' k) eqn:E; cbn [dict_get]; rewrite E;
      [reflexivity | exact IH].
Qed.

Lemma dict_set_keeps_key (k k' : string) (v : bool) (d : dict) :
  In k (dict_keys d) -> In k (dict_keys (dict_set k' v d)).
Proof.
  induction d as [| [k0 v0] d IH]; intro Hin; [destruct Hin |].
  cbn [dict_set]. destruct (String.eqb k0 k').
  - exact Hin.
  - destruct Hin as [<- | Hin]; [now left | right; now apply IH].
Qed.

Lemma dict_set_has_key (k : string) (v : bool) (d : dict) :
  In k (dict_keys (dict_set k v d)).
Proof.
  induction d as [| [k0 v0] d IH]; cbn [dict_set]; [now left |].
  destruct (String.eqb_spec k0 k) as [-> | Hne]; [now left | now right].
Qed.

(** ** The counts of the summary *)

Lemma passed_cons (k : string) (v : bool) (d : dict) :
  passed ((k, v) :: d) = (if v then 1 else 0) + passed d.
Proof. destruct v; reflexivity. Qed.

Lemma total_cons (kv : string * bool) (d : dict) :
  total (kv :: d) = S (total d).
Proof. reflexivity. Qed.

Lemma passed_le_total (d : dict) : passed d <= total d.
Proof.
  induction d as [| [k v] d IH]; [apply Nat.le_refl |].
  rewrite passed_cons, total_cons. destruct v; lia.
Qed.

Lemma passed_eq_total_iff (d : dict) :
  passed d = total d <-> Forall (fun v => v = true) (dict_values d).
Proof.
  induction d as [| [k v] d IH].
  - split; [constructor | reflexivity].
  - pose proof (passed_le_total d) as Hle.
    rewrite passed_cons, total_cons.
    change (dict_values ((k, v) :: d)) with (v :: dict_values d).
    rewrite Forall_cons_iff, <- IH.
    destruct v; split.
    + intro H. split; [reflexivity | lia].
    + intros [_ H]. lia.
    + intro H. lia.
    + intros [H _]. discriminate H.
Qed.

Lemma passed_Permutation (d d' : dict) :
  Permutation d d' -> passed d = passed d'.
Proof.
  induction 1 as [| [k v] l l' _ IH | [k1 v1] [k2 v2] l | l l' l'' _ IH1 _ IH2].
  - reflexivity.
  - now rewrite !passed_cons, IH.
  - rewrite !passed_cons. lia.
  - congruence.
Qed.

(** ** The summary and the header *)

Lemma printed_printed (s : State) (l1 l2 : list string) :
  printed (printed s l1) l2 = printed s (l1 ++ l2).
Proof. unfold printed; cbn. now rewrite app_assoc. Qed.

Lemma print_printed (line : string) (s : State) :
  print line s = (Ret tt, printed s [line]).
Proof. reflexivity. Qed.

Lemma print_statuses_prints (items : list (string * bool)) (s : State) :
  print_statuses items s =
    (Ret tt,
     printed s (map (fun item => status_line (fst item) (snd item)) items)).
Proof.
  revert s. induction items as [| [test_name result] items IH]; intro s.
  - destruct s. unfold printed; cbn. now rewrite app_nil_r.
  - cbn [print_statuses map fst snd]. unfold bind.
    rewrite print_printed, IH, printed_printed. reflexivity.
Qed.

Lemma summary_returns (results : dict) (s : State) :
  summary results s = (Ret (code_of results), printed s (summary_lines results)).
Proof.
  unfold summary, summary_lines, code_of, bind.
  rewrite !print_printed, print_statuses_prints, !printed_printed.
  destruct (passed results =? total results)%nat;
    rewrite !print_printed, !printed_printed;
    unfold ret; rewrite <- !app_assoc; reflexivity.
Qed.

Lemma header_prints (s : State) :
  header s = (Ret tt, printed s header_lines).
Proof.
  unfold header, bind. rewrite !print_printed, !printed_printed. reflexivity.
Qed.

(** ** The driver *)

Lemma main_is_main_of : main = main_of declared_checks.
Proof. reflexivity. Qed.

Lemma checks_then_collect {A : Type} (cs : list Check) (d : dict)
    (k : dict -> M A) (s : State) :
  checks_then cs d k s = bind (collect cs d) k s.
Proof.
  revert d s. induction cs as [| c rest IH]; intros d s.
  - reflexivity.
  - unfold collect. cbn [checks_then]. unfold bind at 1 2 3.
    destruct (run_command (check_cmd c) (check_description c) s)
      as [[r | e] s1]; [| reflexivity].
    rewrite IH. reflexivity.
Qed.

Lemma collect_step (c : Check) (rest : list Check) (d : dict) (s s1 : State)
    (r : bool) :
  run_command (check_cmd c) (check_description c) s = (Ret r, s1) ->
  collect (c :: rest) d s = collect rest (dict_set (check_name c) r d) s1.
Proof.
  intro H. unfold collect. cbn [checks_then]. unfold bind. now rewrite H.
Qed.

Lemma outcomes_step (c : Check) (rest : list Check) (s s1 s2 : State)
    (r : bool) (rs : list bool) :
  run_command (check_cmd c) (check_description c) s = (Ret r, s1) ->
  outcomes rest s1 = (Ret rs, s2) ->
  outcomes (c :: rest) s = (Ret (r :: rs), s2).
Proof.
  intros H1 H2. cbn [outcomes]. unfold bind. now rewrite H1, H2.
Qed.

(** Every check returns, and the dict holds what each returned, stored in
    the order the checks ran. *)
Lemma collect_outcomes (cs : list Check) (d : dict) (s : State) :
  exists rs s',
    outcomes cs s = (Ret rs, s')
    /\ length rs = length cs
    /\ collect cs d s =
         (Ret (dict_set_all (combine (map check_name cs) rs) d), s').
Proof.
  revert d s. induction cs as [| c rest IH]; intros d s.
  - exists [], s. repeat split.
  - destruct (run_command_returns (check_cmd c) (check_description c) s)
      as [s1 [H1 _]].
    destruct (IH (dict_set (check_name c)
                    (verdict (control (fst (subprocess_run (check_cmd c) 60
                                              (world s))))) d) s1)
      as [rs [s2 [Ho [Hl Hc]]]].
    exists (verdict (control (fst (subprocess_run (check_cmd c) 60 (world s))))
              :: rs), s2.
    split; [exact (outcomes_step _ _ _ _ _ _ _ H1 Ho) |].
    split; [cbn [length]; now rewrite Hl |].
    rewrite (collect_step _ _ _ _ _ _ H1), Hc. reflexivity.
Qed.

(** [main] over any checklist returns: the code is that of the dict the
    checks left, and the summary is the last thing printed. *)
Lemma main_of_returns (cs : list Check) (s : State) :
  exists rs s1,
    outcomes cs (printed s header_lines) = (Ret rs, s1)
    /\ length rs = length cs
    /\ main_of cs s =
         (Ret (code_of (results_of cs rs)),
          printed s1 (summary_lines (results_of cs rs))).
Proof.
  destruct (collect_outcomes cs [] (printed s header_lines))
    as [rs [s1 [Ho [Hl Hc]]]].
  exists rs, s1. split; [exact Ho |]. split; [exact Hl |].
  unfold main_of, bind at 1. rewrite header_prints, checks_then_collect.
  unfold bind. rewrite Hc. apply summary_returns.
Qed.

(** With pairwise distinct names the dict is the list of the names paired
    with the results. *)
Lemma results_of_distinct (cs : list Check) (rs : list bool) :
  NoDup (map check_name cs) -> length rs = length cs ->
  results_of cs rs = combine (map check_name cs) rs.
Proof.
  intros Hnd Hl. unfold results_of.
  rewrite dict_set_all_fresh; [reflexivity |].
  cbn [dict_keys map app].
  assert (Hfst : map fst (combine (map check_name cs) rs) = map check_name cs).
  { revert rs Hl. clear Hnd. induction cs as [| c rest IH]; intros rs Hl.
    - reflexivity.
    - destruct rs as [| r rs]; [discriminate Hl |].
      cbn [map combine fst]. f_equal. apply IH. now injection Hl. }
  now rewrite Hfst.
Qed.

Lemma values_combine (names : list string) (rs : list bool) :
  length rs = length names -> dict_values (combine names rs) = rs.
Proof.
  revert rs. induction names as [| n names IH]; intros [| r rs] Hl;
    try discriminate Hl; [reflexivity |].
  unfold dict_values in *. cbn [combine map snd]. f_equal.
  apply IH. now injection Hl.
Qed.

Lemma declared_names_distinct : NoDup (map check_name declared_checks).
Proof.
  cbn [map declared_checks check_name].
  repeat (constructor; [cbn [In]; intuition discriminate |]).
  constructor.
Qed.

Lemma code_of_zero_iff (d : dict) :
  code_of d = 0%Z <-> Forall (fun v => v = true) (dict_values d).
Proof.
  rewrite <- passed_eq_total_iff. unfold code_of.
  destruct (Nat.eqb_spec (passed d) (total d)) as [E | E];
    split; intro H; solve [assumption | reflexivity | discriminate H | contradiction].
Qed.

Lemma code_of_one_iff (d : dict) :
  code_of d = 1%Z <-> ~ Forall (fun v => v = true) (dict_values d).
Proof.
  rewrite <- passed_eq_total_iff. unfold code_of.
  destruct (Nat.eqb_spec (passed d) (total d)) as [E | E];
    split; intro H; solve [assumption | reflexivity | discriminate H | contradiction].
Qed.

(** ** The claims *)

(** C1. The process ends with status 0 exactly when every one of the nine
    declared checks passed, that is when [run_command] returned [True] for
    each of them, and with status 1 otherwise; this for every way the
    commands can turn out (every world and every [subprocess.run]). *)
Theorem exit_code_zero_iff_all_passed (s : State) :
  exists rs s1,
    outcomes declared_checks (printed s header_lines) = (Ret rs, s1)
    /\ length rs = length declared_checks
    /\ (exit_code s = 0%Z <-> Forall (fun r => r = true) rs)
    /\ (exit_code s = 1%Z <-> ~ Forall (fun r => r = true) rs).
Proof.
  destruct (main_of_returns declared_checks s) as [rs [s1 [Ho [Hl Hm]]]].
  exists rs, s1. split; [exact Ho |]. split; [exact Hl |].
  unfold exit_code. rewrite main_is_main_of, Hm. cbn [fst sys_exit].
  rewrite (results_of_distinct _ _ declared_names_distinct Hl).
  rewrite code_of_zero_iff, code_of_one_iff, values_combine;
    [tauto | now rewrite length_map].
Qed.

(** C3. When the command of a check runs into the timeout, [run_command]
    catches [TimeoutExpired], reports it and returns [False]; the driver
    stores [False] for that check and goes on with all the checks after it:
    what remains of the run is the run of the remaining checks. *)
Theorem timeout_fails_the_check_only (c : Check) (rest : list Check)
    (d : dict) (s : State) (e : PyExc) (w : World) :
  subprocess_run (check_cmd c) 60 (world s) = (Raise e, w) ->
  exc_class e = TimeoutExpired ->
  exists s1,
    run_command (check_cmd c) (check_description c) s = (Ret false, s1)
    /\ world s1 = w
    /\ sys_stdout s1 =
         sys_stdout s ++ test_header (check_description c)
           ++ ["ERROR: Command timed out"]
    /\ (forall (A : Type) (k : dict -> M A),
          checks_then (c :: rest) d k s =
            checks_then rest (dict_set (check_name c) false d) k s1)
    /\ exists rs s2,
         outcomes rest s1 = (Ret rs, s2)
         /\ length rs = length rest
         /\ outcomes (c :: rest) s = (Ret (false :: rs), s2).
Proof.
  intros H Hc. apply isinstance_TimeoutExpired in Hc.
  pose proof (run_command_timeout _ (check_description c) _ _ _ H Hc) as Hr.
  eexists. split; [exact Hr |].
  split; [reflexivity |]. split; [reflexivity |]. split.
  - intros A k. cbn [checks_then]. unfold bind. now rewrite Hr.
  - destruct (collect_outcomes rest d
                (mkState w
                   (sys_stdout s ++ test_header (check_description c)
                      ++ ["ERROR: Command timed out"]) (sys_stderr s)))
      as [rs [s2 [Ho [Hl _]]]].
    exists rs, s2. split; [exact Ho |]. split; [exact Hl |].
    exact (outcomes_step _ _ _ _ _ _ _ Hr Ho).
Qed.

(** C4 (as the code has it).  For every list of N checks with pairwise
    distinct names, every check returns and contributes one entry of the
    dict, whatever it returned: the keys are the names, the values are what
    [run_command] returned, and the total of the summary is N.  In
    particular, when three such checks return [True], [False], [True], the
    summary reads 2/3 and [main] returns 1. *)
Theorem tally_counts_every_distinct_check (cs : list Check) (s : State) :
  NoDup (map check_name cs) ->
  exists rs s1,
    outcomes cs (printed s header_lines) = (Ret rs, s1)
    /\ length rs = length cs
    /\ main_of cs s =
         (Ret (code_of (combine (map check_name cs) rs)),
          printed s1 (summary_lines (combine (map check_name cs) rs)))
    /\ total (combine (map check_name cs) rs) = length cs
    /\ dict_keys (combine (map check_name cs) rs) = map check_name cs
    /\ dict_values (combine (map check_name cs) rs) = rs
    /\ (rs = [true; false; true] ->
        sys_exit (fst (main_of cs s)) = 1%Z
        /\ exists out banner,
             sys_stdout (snd (main_of cs s)) =
               out ++ [(PyStr.nl ++ "Total: 2/3 tests passed")%string; banner]).
Proof.
  intro Hnd.
  destruct (main_of_returns cs s) as [rs [s1 [Ho [Hl Hm]]]].
  rewrite (results_of_distinct _ _ Hnd Hl) in Hm.
  exists rs, s1. split; [exact Ho |]. split; [exact Hl |].
  split; [exact Hm |].
  assert (Hn : length rs = length (map check_name cs))
    by now rewrite length_map.
  split; [| split; [| split]].
  - unfold total, dict_len. rewrite length_combine, length_map, Hl.
    apply Nat.min_id.
  - clear - Hn. revert rs Hn.
    induction (map check_name cs) as [| n names IH]; intros [| r rs] Hn;
      try discriminate Hn; [reflexivity |].
    unfold dict_keys in *. cbn [combine map fst]. f_equal.
    apply IH. now injection Hn.
  - now apply values_combine.
  - intro Hrs. rewrite Hm. cbn [fst snd]. subst rs.
    destruct cs as [| c1 [| c2 [| c3 [| c4 cs]]]]; try discriminate Hl.
    split; [reflexivity |].
    exists (sys_stdout s1
              ++ [(PyStr.nl ++ rule)%string; "TEST SUMMARY"; rule;
                  status_line (check_name c1) true;
                  status_line (check_name c2) false;
                  status_line (check_name c3) true]).
    exists failure_banner.
    unfold printed. cbn [sys_stdout]. rewrite <- app_assoc. reflexivity.
Qed.

(** C7. With no check declared the dict stays empty: passed and total are
    both 0, the summary reads 0/0, the success branch is taken and the
    process ends with status 0. *)
Theorem no_checks_is_success (s : State) :
  passed [] = 0 /\ total [] = 0
  /\ main_of [] s =
       (Ret 0%Z,
        printed s
          (header_lines
             ++ [(PyStr.nl ++ rule)%string; "TEST SUMMARY"; rule;
                 (PyStr.nl ++ "Total: 0/0 tests passed")%string;
                 success_banner]))
  /\ sys_exit (fst (main_of [] s)) = 0%Z.
Proof.
  assert (Hm : main_of [] s =
    (Ret 0%Z,
     printed s
       (header_lines
          ++ [(PyStr.nl ++ rule)%string; "TEST SUMMARY"; rule;
              (PyStr.nl ++ "Total: 0/0 tests passed")%string;
              success_banner]))).
  { unfold main_of, bind. rewrite header_prints. cbn [checks_then].
    rewrite summary_returns, printed_printed. reflexivity. }
  split; [reflexivity |]. split; [reflexivity |].
  split; [exact Hm | now rewrite Hm].
Qed.

(** C8. The summary does not depend on the order of the results: two
    sequences of results that are permutations of each other have the same
    passed count and the same total, and [main] returns the same code, hence
    the process the same exit status. *)
Theorem summary_ignores_order (d d' : dict) (s : State) :
  Permutation d d' ->
  passed d = passed d'
  /\ total d = total d'
  /\ fst (summary d s) = fst (summary d' s)
  /\ sys_exit (fst (summary d s)) = sys_exit (fst (summary d' s)).
Proof.
  intro Hp.
  assert (Hpass : passed d = passed d') by now apply passed_Permutation.
  assert (Htot : total d = total d') by now apply Permutation_length.
  rewrite !summary_returns. cbn [fst]. unfold code_of.
  rewrite Hpass, Htot. repeat split.
Qed.

(** ** More on the dict *)

Lemma dict_set_keys_present (k : string) (v : bool) (d : dict) :
  In k (dict_keys d) -> dict_keys (dict_set k v d) = dict_keys d.
Proof.
  induction d as [| [k' v'] d IH]; intro Hin; [destruct Hin |].
  cbn [dict_set]. destruct (String.eqb_spec k' k) as [-> | Hne].
  - reflexivity.
  - unfold dict_keys in *. cbn [map fst]. f_equal. apply IH.
    destruct Hin as [E | Hin]; [contradiction | exact Hin].
Qed.

Lemma dict_set_keys (k : string) (v : bool) (d : dict) :
  NoDup (dict_keys d) ->
  NoDup (dict_keys (dict_set k v d))
  /\ incl (dict_keys (dict_set k v d)) (k :: dict_keys d)
  /\ length (dict_set k v d) <= S (length d).
Proof.
  intro Hnd. destruct (in_dec string_dec k (dict_keys d)) as [Hin | Hout].
  - assert (Hl : length (dict_set k v d) = length d).
    { rewrite <- (length_map fst (dict_set k v d)).
      change (map fst (dict_set k v d)) with (dict_keys (dict_set k v d)).
      rewrite (dict_set_keys_present _ _ _ Hin).
      apply length_map. }
    rewrite (dict_set_keys_present _ _ _ Hin), Hl.
    split; [exact Hnd |]. split; [apply incl_tl, incl_refl | lia].
  - rewrite (dict_set_fresh _ _ _ Hout). unfold dict_keys in *.
    rewrite map_app, length_app. cbn [map fst length].
    split; [| split; [| lia]].
    + apply NoDup_app; [exact Hnd | repeat constructor; intros [] |].
      intros a Ha [<- | []]. exact (Hout Ha).
    + intros x Hx. apply in_app_or in Hx. destruct Hx as [Hx | [<- | []]];
        [now right | now left].
Qed.

Lemma dict_set_all_keys (kvs : list (string * bool)) (d : dict) :
  NoDup (dict_keys d) ->
  NoDup (dict_keys (dict_set_all kvs d))
  /\ incl (dict_keys (dict_set_all kvs d)) (dict_keys d ++ map fst kvs)
  /\ length (dict_set_all kvs d) <= length d + length kvs.
Proof.
  revert d. induction kvs as [| [k v] kvs IH]; intros d Hnd.
  - cbn [dict_set_all map length]. rewrite app_nil_r.
    split; [exact Hnd |]. split; [apply incl_refl | lia].
  - cbn [dict_set_all map fst length].
    destruct (dict_set_keys k v d Hnd) as [Hnd1 [Hincl1 Hlen1]].
    destruct (IH _ Hnd1) as [Hnd2 [Hincl2 Hlen2]].
    split; [exact Hnd2 |]. split; [| lia].
    intros x Hx. apply Hincl2 in Hx. apply in_app_or in Hx.
    apply in_or_app. destruct Hx as [Hx | Hx].
    + apply Hincl1 in Hx. destruct Hx as [<- | Hx];
        [right; now left | now left].
    + right. now right.
Qed.

Lemma dict_get_set_other (k k' : string) (v : bool) (d : dict) :
  k' <> k -> dict_get k' (dict_set k v d) = dict_get k' d.
Proof.
  intro Hne. induction d as [| [k0 v0] d IH]; cbn [dict_set dict_get].
  - destruct (String.eqb_spec k k') as [E | _]; [| reflexivity].
    now elim Hne.
  - destruct (String.eqb_spec k0 k) as [-> | Hk0]; cbn [dict_get].
    + destruct (String.eqb_spec k k') as [E | _]; [| reflexivity].
      now elim Hne.
    + now rewrite IH.
Qed.

Lemma dict_get_app (k : string) (d1 d2 : dict) :
  dict_get k (d1 ++ d2) =
    match dict_get k d1 with
    | Some v => Some v
    | None => dict_get k d2
    end.
Proof.
  induction d1 as [| [k0 v0] d1 IH]; [reflexivity |].
  cbn [app dict_get]. now destruct (String.eqb k0 k).
Qed.

(** Looking a key up after a series of assignments finds the last value
    assigned to it, and what the dict held before when there was none. *)
Lemma dict_get_set_all (k : string) (kvs : list (string * bool)) (d : dict) :
  dict_get k (dict_set_all kvs d) =
    match dict_get k (rev kvs) with
    | Some v => Some v
    | None => dict_get k d
    end.
Proof.
  revert d. induction kvs as [| [k0 v0] kvs IH]; intro d; [reflexivity |].
  cbn [dict_set_all rev]. rewrite IH, dict_get_app. cbn [dict_get].
  destruct (dict_get k (rev kvs)) as [v |]; [reflexivity |].
  destruct (String.eqb_spec k0 k) as [-> | Hne].
  - apply dict_get_set.
  - apply dict_get_set_other. congruence.
Qed.

Lemma dict_get_In (k : string) (v : bool) (d : dict) :
  NoDup (dict_keys d) -> (In (k, v) d <-> dict_get k d = Some v).
Proof.
  induction d as [| [k0 v0] d IH]; intro Hnd.
  - split; [intros [] | discriminate].
  - unfold dict_keys in *. cbn [map fst] in Hnd.
    apply NoDup_cons_iff in Hnd as [Hout Hnd]. cbn [dict_get In].
    destruct (String.eqb_spec k0 k) as [-> | Hne].
    + split.
      * intros [E | Hin]; [now injection E as -> |].
        elim Hout. apply (in_map fst) in Hin. exact Hin.
      * intro E. injection E as ->. now left.
    + rewrite <- (IH Hnd). split.
      * intros [E | Hin]; [injection E as E _; contradiction | exact Hin].
      * intro Hin. now right.
Qed.

Lemma map_fst_combine (names : list string) (rs : list bool) :
  length rs = length names -> map fst (combine names rs) = names.
Proof.
  revert rs. induction names as [| n names IH]; intros [| r rs] Hl;
    try discriminate Hl; [reflexivity |].
  cbn [combine map fst]. f_equal. apply IH. now injection Hl.
Qed.

(** X2. Whatever the names of the checks, the keys of the dict are pairwise
    distinct and the total of the summary is at most the number of checks;
    it is that number exactly when the names of the checks are pairwise
    distinct. *)
Theorem tally_is_N_iff_names_distinct (cs : list Check) (rs : list bool) :
  length rs = length cs ->
  NoDup (dict_keys (results_of cs rs))
  /\ total (results_of cs rs) <= length cs
  /\ (total (results_of cs rs) = length cs <-> NoDup (map check_name cs)).
Proof.
  intro Hl. unfold results_of, total, dict_len.
  assert (Hn : length rs = length (map check_name cs))
    by now rewrite length_map.
  destruct (dict_set_all_keys (combine (map check_name cs) rs) []
              (NoDup_nil _)) as [Hnd [Hincl Hlen]].
  cbn [length dict_keys map app] in Hincl, Hlen.
  rewrite (map_fst_combine _ _ Hn) in Hincl.
  rewrite length_combine, length_map, Hl, Nat.min_id in Hlen.
  split; [exact Hnd |]. split; [exact Hlen |]. split.
  - intro E. eapply NoDup_incl_NoDup; [exact Hnd | | exact Hincl].
    unfold dict_keys. rewrite !length_map. lia.
  - intro Hd. fold (results_of cs rs).
    rewrite (results_of_distinct _ _ Hd Hl).
    now rewrite length_combine, length_map, Hl, Nat.min_id.
Qed.

(** X3. When several checks have the same name the summary shows the name
    once, with the result of the last of them: a pair is an item of the dict
    exactly when its value is the last one stored under its key.  A name no
    check has is not in the dict. *)
Theorem report_keeps_the_last_result (cs : list Check) (rs : list bool)
    (name : string) (v : bool) :
  (In (name, v) (dict_items (results_of cs rs))
   <-> dict_get name (rev (combine (map check_name cs) rs)) = Some v)
  /\ dict_get name (results_of cs rs)
       = dict_get name (rev (combine (map check_name cs) rs)).
Proof.
  assert (Hg : dict_get name (results_of cs rs)
               = dict_get name (rev (combine (map check_name cs) rs))).
  { unfold results_of. rewrite dict_get_set_all.
    now destruct (dict_get name (rev (combine (map check_name cs) rs))). }
  split; [| exact Hg]. rewrite <- Hg. unfold dict_items.
  apply dict_get_In. unfold results_of.
  apply (dict_set_all_keys _ [] (NoDup_nil _)).
Qed.

Lemma no_false_item_all_true (d : dict) :
  (forall k, ~ In (k, false) d) -> Forall (fun v => v = true) (dict_values d).
Proof.
  induction d as [| [k v] d IH]; intro H; [constructor |].
  unfold dict_values in *. cbn [map snd]. constructor.
  - destruct v; [reflexivity |]. elim (H k). now left.
  - apply IH. intros k0 Hin. apply (H k0). now right.
Qed.

Lemma FAIL_line_is_a_failed_item (d : dict) (name : string) :
  In (status_line name false) (summary_lines d) ->
  exists k, In (k, false) d.
Proof.
  unfold summary_lines. intro Hin.
  apply in_app_or in Hin. destruct Hin as [Hin | Hin].
  { unfold rule in Hin. cbn in Hin.
    destruct Hin as [E | [E | [E | []]]]; discriminate E. }
  apply in_app_or in Hin. destruct Hin as [Hin | Hin].
  - apply in_map_iff in Hin. destruct Hin as [[k v] [E Hin]].
    cbn [fst snd] in E. destruct v.
    + unfold status_line in E. cbn in E. discriminate E.
    + exists k. exact Hin.
  - destruct Hin as [E | [E | []]].
    + unfold tally_line in E. cbn in E. discriminate E.
    + destruct (passed d =? total d)%nat;
        unfold success_banner, failure_banner in E; cbn in E; discriminate E.
Qed.

Lemma last_app_two {A : Type} (l : list A) (a b d : A) :
  last (l ++ [a; b]) d = b.
Proof.
  change [a; b] with ([a] ++ [b]). rewrite app_assoc. apply last_last.
Qed.

(** X6. The code [main] returns agrees with the report it prints: it is 0
    exactly when no line of the summary is a FAIL line, and then the summary
    ends with the success banner; otherwise it is 1 and the summary ends
    with the failure banner. *)
Theorem exit_zero_iff_no_FAIL_line (d : dict) (s : State) :
  summary d s = (Ret (code_of d), printed s (summary_lines d))
  /\ (code_of d = 0%Z
      <-> forall name, ~ In (status_line name false) (summary_lines d))
  /\ (code_of d = 0%Z -> last (summary_lines d) EmptyString = success_banner)
  /\ (code_of d <> 0%Z
      -> code_of d = 1%Z
         /\ last (summary_lines d) EmptyString = failure_banner).
Proof.
  split; [apply summary_returns |]. split; [| split].
  - rewrite code_of_zero_iff. split.
    + intros Hall name Hin.
      destruct (FAIL_line_is_a_failed_item _ _ Hin) as [k Hk].
      rewrite Forall_forall in Hall.
      assert (E : false = true)
        by (apply Hall; unfold dict_values;
            apply (in_map snd) in Hk; exact Hk).
      discriminate E.
    + intro H. apply no_false_item_all_true. intros k Hin.
      apply (H k). unfold summary_lines.
      apply in_or_app. right. apply in_or_app. left.
      apply in_map_iff. exists (k, false). split; [reflexivity | exact Hin].
  - unfold code_of, summary_lines. intro H.
    destruct (passed d =? total d)%nat; [| discriminate H].
    now rewrite !app_assoc, last_app_two.
  - unfold code_of, summary_lines. intro H.
    destruct (passed d =? total d)%nat; [now elim H |].
    split; [reflexivity |]. now rewrite !app_assoc, last_app_two.
Qed.

(** ** [git-push.py] *)

Lemma git_push_run_command_effect (cmd description : string) (s : State) :
  exists s' out,
    git_push_run_command cmd description s = (Ret (git_ok cmd (world s)), s')
    /\ world s' = git_then cmd (world s)
    /\ sys_stderr s' = sys_stderr s
    /\ sys_stdout s' = sys_stdout s ++ out.
Proof.
  unfold git_push_run_command, bind, try_except, run_in, print, when, ret,
    git_ok, git_then, git.
  cbn [world sys_stdout sys_stderr].
  destruct (subprocess_run_in cmd "/vercel/share/v0-project" true (world s))
    as [[p | e] w].
  - cbn [control verdict fst snd].
    destruct (returncode p =? 0)%Z; [destruct (PyStr.truthy (stdout p)) |];
      cbn [world sys_stdout sys_stderr]; eexists; eexists;
      (split; [reflexivity |]); cbn [world sys_stdout sys_stderr];
      (split; [reflexivity |]); (split; [reflexivity |]);
      rewrite <- !app_assoc; reflexivity.
  - cbn [find_handler control verdict fst snd]. rewrite isinstance_Exception.
    cbn [world sys_stdout sys_stderr]. eexists; eexists.
    split; [reflexivity |]. cbn [world sys_stdout sys_stderr].
    split; [reflexivity |]. split; [reflexivity |].
    rewrite <- !app_assoc; reflexivity.
Qed.

(** X8. When staging fails, [main] of [git-push.py] returns [False] at
    once: after [git status] and [git add .] no other command is run (no
    commit, no push), and the process ends with status 1. *)
Theorem staging_failure_stops_the_deployment (s : State) :
  git_ok "git add ." (git_then "git status" (world s)) = false ->
  exists s',
    git_push_main s = (Ret false, s')
    /\ world s' = staged_world (world s)
    /\ git_push_exit_code s = 1%Z.
Proof.
  intro H. unfold git_push_exit_code, git_push_main, bind.
  rewrite print_printed.
  git_step git_push_run_command_effect s1 Hw1 He1.
  git_step git_push_run_command_effect s2 Hw2 He2.
  cbn [world printed] in Hw1. rewrite Hw1 in *. rewrite H. cbn [negb].
  unfold ret. exists s2. cbn [fst]. repeat split. exact Hw2.
Qed.

(** X9. The call that looks for staged changes is made outside any [try]:
    when it raises, the exception leaves [main] of [git-push.py] uncaught,
    nothing is committed or pushed, and the process ends with status 1. *)
Theorem diff_failure_is_not_caught (s : State) (e : PyExc) (w : World) :
  git_ok "git add ." (git_then "git status" (world s)) = true ->
  git_diff (staged_world (world s)) = (Raise e, w) ->
  exists s',
    git_push_main s = (Raise e, s')
    /\ world s' = w
    /\ git_push_exit_code s = 1%Z.
Proof.
  intros H Hd. unfold git_push_exit_code, git_push_main, bind.
  rewrite print_printed.
  git_step git_push_run_command_effect s1 Hw1 He1.
  git_step git_push_run_command_effect s2 Hw2 He2.
  cbn [world printed] in Hw1. rewrite Hw1 in *. rewrite H. cbn [negb].
  unfold run_in. fold (staged_world (world s)) in Hw2.
  unfold git_diff in Hd. rewrite Hw2, Hd. cbv beta iota.
  eexists. cbn [fst]. repeat split.
Qed.

(** X10. When nothing is staged ([git diff --cached --quiet] exits 0),
    [main] of [git-push.py] says so and returns [True] without committing
    or pushing; the process ends with status 0. *)
Theorem nothing_to_commit_is_success (s : State) (p : CompletedProcess)
    (w : World) :
  git_ok "git add ." (git_then "git status" (world s)) = true ->
  git_diff (staged_world (world s)) = (Ret p, w) ->
  returncode p = 0%Z ->
  exists s',
    git_push_main s = (Ret true, s')
    /\ world s' = w
    /\ last (sys_stdout s') EmptyString = "[v0] No changes to commit"
    /\ git_push_exit_code s = 0%Z.
Proof.
  intros H Hd Hrc. unfold git_push_exit_code, git_push_main, bind.
  rewrite print_printed.
  git_step git_push_run_command_effect s1 Hw1 He1.
  git_step git_push_run_command_effect s2 Hw2 He2.
  cbn [world printed] in Hw1. rewrite Hw1 in *. rewrite H. cbn [negb].
  unfold run_in. fold (staged_world (world s)) in Hw2.
  unfold git_diff in Hd. rewrite Hw2, Hd. cbv beta iota.
  rewrite Hrc. cbn [Z.eqb negb]. rewrite print_printed. unfold ret.
  eexists. cbn [fst]. split; [reflexivity |].
  cbn [world printed sys_stdout]. split; [reflexivity |].
  split; [apply last_last | reflexivity].
Qed.

(** X11. When the commit fails, [main] of [git-push.py] returns [False]
    and no push is attempted; the process ends with status 1. *)
Theorem commit_failure_stops_before_push (s : State) (p : CompletedProcess)
    (w : World) :
  git_ok "git add ." (git_then "git status" (world s)) = true ->
  git_diff (staged_world (world s)) = (Ret p, w) ->
  returncode p <> 0%Z ->
  git_ok commit_command w = false ->
  exists s',
    git_push_main s = (Ret false, s')
    /\ world s' = git_then commit_command w
    /\ git_push_exit_code s = 1%Z.
Proof.
  intros H Hd Hrc Hc. unfold git_push_exit_code, git_push_main, bind.
  rewrite print_printed.
  git_step git_push_run_command_effect s1 Hw1 He1.
  git_step git_push_run_command_effect s2 Hw2 He2.
  cbn [world printed] in Hw1. rewrite Hw1 in *. rewrite H. cbn [negb].
  unfold run_in. fold (staged_world (world s)) in Hw2.
  unfold git_diff in Hd. rewrite Hw2, Hd. cbv beta iota.
  apply Z.eqb_neq in Hrc. rewrite Hrc. cbn [negb].
  git_step git_push_run_command_effect s3 Hw3 He3.
  cbn [world] in Hw3. fold commit_command in Hw3.
  cbn [world]. fold commit_command. rewrite Hc. cbn [negb]. unfold ret.
  exists s3. cbn [fst]. repeat split. exact Hw3.
Qed.

(** X12. Once the commit has succeeded, [main] of [git-push.py] returns
    [True] and announces that the deployment is complete whatever becomes of
    the push: the second push, with [--set-upstream], is run exactly when
    the first one failed, and its result is not looked at.  The process ends
    with status 0. *)
Theorem push_failure_is_reported_as_success (s : State)
    (p : CompletedProcess) (w : World) :
  git_ok "git add ." (git_then "git status" (world s)) = true ->
  git_diff (staged_world (world s)) = (Ret p, w) ->
  returncode p <> 0%Z ->
  git_ok commit_command w = true ->
  exists s',
    git_push_main s = (Ret true, s')
    /\ world s' =
         (let w4 := git_then commit_command w in
          let w5 := git_then "git push origin medi-sync-ai-api" w4 in
          if git_ok "git push origin medi-sync-ai-api" w4 then w5
          else git_then "git push --set-upstream origin medi-sync-ai-api" w5)
    /\ last (sys_stdout s') EmptyString =
         "[v0] Changes pushed to: https://github.com/Astronomox/OliveAIWEB"
    /\ git_push_exit_code s = 0%Z.
Proof.
  intros H Hd Hrc Hc. unfold git_push_exit_code, git_push_main, bind.
  rewrite print_printed.
  git_step git_push_run_command_effect s1 Hw1 He1.
  git_step git_push_run_command_effect s2 Hw2 He2.
  cbn [world printed] in Hw1. rewrite Hw1 in *. rewrite H. cbn [negb].
  unfold run_in. fold (staged_world (world s)) in Hw2.
  unfold git_diff in Hd. rewrite Hw2, Hd. cbv beta iota.
  apply Z.eqb_neq in Hrc. rewrite Hrc. cbn [negb].
  git_step git_push_run_command_effect s3 Hw3 He3.
  cbn [world] in Hw3. fold commit_command in Hw3.
  cbn [world]. fold commit_command. rewrite Hc. cbn [negb].
  git_step git_push_run_command_effect s4 Hw4 He4.
  rewrite Hw3 in *.
  destruct (git_ok "git push origin medi-sync-ai-api"
              (git_then commit_command w)); cbn [negb].
  - unfold ret at 1. cbv beta iota. rewrite !print_printed. unfold ret.
    eexists. cbn [fst]. split; [reflexivity |].
    cbn [world printed sys_stdout]. split; [exact Hw4 |].
    split; [apply last_last | reflexivity].
  - rewrite print_printed.
    git_step git_push_run_command_effect s5 Hw5 He5.
    unfold ret at 1. cbv beta iota. rewrite !print_printed. unfold ret.
    eexists. cbn [fst]. split; [reflexivity |].
    cbn [world printed sys_stdout]. cbn [world printed] in Hw5.
    rewrite Hw5, Hw4. split; [reflexivity |].
    split; [apply last_last | reflexivity].
Qed.

(** What [main] of [git-push.py] returns, read off the outcomes of the
    calls it makes. *)
Lemma git_push_main_result (s : State) :
  fst (git_push_main s) =
    if negb (git_ok "git add ." (git_then "git status" (world s)))
    then Ret false
    else
      match git_diff (staged_world (world s)) with
      | (Raise e, _) => Raise e
      | (Ret p, w) =>
          if negb (returncode p =? 0)%Z
          then Ret (git_ok commit_command w)
          else Ret true
      end.
Proof.
  unfold git_push_main, bind. rewrite print_printed.
  git_step git_push_run_command_effect s1 Hw1 He1.
  git_step git_push_run_command_effect s2 Hw2 He2.
  cbn [world printed] in Hw1. rewrite Hw1 in *.
  destruct (git_ok "git add ." (git_then "git status" (world s)));
    cbn [negb]; [| reflexivity].
  unfold run_in. fold (staged_world (world s)) in Hw2. rewrite Hw2.
  unfold git_diff.
  destruct (subprocess_run_in "git diff --cached --quiet"
              "/vercel/share/v0-project" false (staged_world (world s)))
    as [[p | e] w]; cbv beta iota; [| reflexivity].
  destruct (returncode p =? 0)%Z; cbn [negb]; [reflexivity |].
  git_step git_push_run_command_effect s3 Hw3 He3.
  cbn [world]. fold commit_command.
  destruct (git_ok commit_command w); cbn [negb]; [| reflexivity].
  git_step git_push_run_command_effect s4 Hw4 He4.
  destruct (git_ok "git push origin medi-sync-ai-api" (world s3));
    cbn [negb].
  - unfold ret at 1. cbv beta iota. rewrite !print_printed. reflexivity.
  - rewrite print_printed.
    git_step git_push_run_command_effect s5 Hw5 He5.
    unfold ret at 1. cbv beta iota. rewrite !print_printed. reflexivity.
Qed.

(** X13. Where the look for staged changes returns, the process of
    [git-push.py] ends with status 0 exactly when staging succeeded and
    either nothing was staged or the commit succeeded; the status of
    [git status] and of the pushes does not enter. *)
Theorem git_push_exit_code_zero_iff (s : State) (p : CompletedProcess)
    (w : World) :
  git_diff (staged_world (world s)) = (Ret p, w) ->
  (git_push_exit_code s = 0%Z
   <-> git_ok "git add ." (git_then "git status" (world s)) = true
       /\ (returncode p = 0%Z \/ git_ok commit_command w = true))
  /\ (git_push_exit_code s = 0%Z \/ git_push_exit_code s = 1%Z).
Proof.
  intro Hd. unfold git_push_exit_code. rewrite git_push_main_result, Hd.
  destruct (git_ok "git add ." (git_then "git status" (world s)));
    cbn [negb].
  - destruct (Z.eqb_spec (returncode p) 0) as [E | E]; cbn [negb].
    + split; [| now left]. split; [intros _; split; [reflexivity | now left]
                                  | reflexivity].
    + destruct (git_ok commit_command w).
      * split; [| now left].
        split; [intros _; split; [reflexivity | now right] | reflexivity].
      * split; [| now right]. split; [discriminate |].
        intros [_ [H | H]]; [contradiction | discriminate H].
  - split; [| now right]. split; [discriminate |].
    intros [H _]. discriminate H.
Qed.

(** ** [verify-build.py] *)

(** X14. The process of [verify-build.py] ends with status 0 exactly when
    the change of directory succeeded, [npm run build] was started and
    completed, and its exit status was 0; in every other case it ends with
    status 1. *)
Theorem verify_build_exit_code_zero_iff (s : State) :
  (verify_build_exit_code s = 0%Z
   <-> exists w1 p w2,
         os_chdir "/vercel/share/v0-project" (world s) = (Ret tt, w1)
         /\ subprocess_run_argv ["npm"; "run"; "build"] w1 = (Ret p, w2)
         /\ returncode p = 0%Z)
  /\ (verify_build_exit_code s = 0%Z \/ verify_build_exit_code s = 1%Z).
Proof.
  unfold verify_build_exit_code, verify_build, bind, chdir, run_argv.
  destruct (os_chdir "/vercel/share/v0-project" (world s))
    as [[[] | e] w1]; cbv beta iota.
  - rewrite !print_printed. cbn [world printed].
    destruct (subprocess_run_argv ["npm"; "run"; "build"] w1)
      as [[p | e] w2] eqn:Hrun; cbv beta iota.
    + rewrite print_printed.
      assert (Hw : forall st, exists st',
                 when (PyStr.truthy (stderr p))
                   (print ("STDERR:" ++ " " ++ stderr p)) st = (Ret tt, st')).
      { intro st. unfold when.
        destruct (PyStr.truthy (stderr p)); eexists; reflexivity. }
      match goal with
      | |- context [when ?c ?b ?st] => destruct (Hw st) as [st' ->]
      end.
      destruct (Z.eqb_spec (returncode p) 0) as [E | E];
        rewrite !print_printed; cbn [fst sys_exit ret].
      * split; [| now left]. split; [| reflexivity].
        intros _. exists w1, p, w2.
        split; [reflexivity |]. split; [exact Hrun | exact E].
      * split; [| now right]. split; [discriminate |].
        intros (w1' & p' & w2' & H1 & H2 & H3).
        injection H1 as <-. rewrite Hrun in H2. injection H2 as <- _.
        contradiction.
    + cbn [fst sys_exit]. split; [| now right]. split; [discriminate |].
      intros (w1' & p' & w2' & H1 & H2 & _).
      injection H1 as <-. rewrite Hrun in H2. discriminate H2.
  - cbn [fst sys_exit]. split; [| now right]. split; [discriminate |].
    intros (w1' & p' & w2' & H1 & _). discriminate H1.
Qed.

(** X15. When the project directory cannot be entered, [verify-build.py]
    stops on the exception of [os.chdir] before it has printed anything or
    started the build, and the process ends with status 1. *)
Theorem verify_build_stops_without_directory (s : State) (e : PyExc)
    (w : World) :
  os_chdir "/vercel/share/v0-project" (world s) = (Raise e, w) ->
  verify_build s = (Raise e, mkState w (sys_stdout s) (sys_stderr s))
  /\ verify_build_exit_code s = 1%Z.
Proof.
  intro H. unfold verify_build_exit_code, verify_build, bind, chdir.
  rewrite H. split; reflexivity.
Qed.

(** X16. [verify-build.py] runs the build outside any [try]: when
    [subprocess.run] raises ([npm] is not installed, say), the exception is
    not caught; the script has printed its two opening lines and nothing
    else, and the process ends with status 1. *)
Theorem verify_build_does_not_catch (s : State) (w1 w2 : World) (e : PyExc) :
  os_chdir "/vercel/share/v0-project" (world s) = (Ret tt, w1) ->
  subprocess_run_argv ["npm"; "run"; "build"] w1 = (Raise e, w2) ->
  verify_build s =
    (Raise e,
     mkState w2
       (sys_stdout s
          ++ ["[BUILD TEST] Starting Next.js build verification...";
              PyStr.mul "=" 60])
       (sys_stderr s))
  /\ verify_build_exit_code s = 1%Z.
Proof.
  intros H1 H2. unfold verify_build_exit_code, verify_build, bind, chdir,
    run_argv.
  rewrite H1. cbv beta iota. rewrite !print_printed. cbn [world printed].
  rewrite H2. cbv beta iota. rewrite printed_printed. unfold printed.
  cbn [fst sys_exit sys_stdout sys_stderr app]. split; reflexivity.
Qed.

(** ** [run_command_full] *)

Lemma derived_is_Exception (c : ExcClass) (msg : string) :
  isinstance_any (mkBaseExc (Derived c) msg) Exception = true.
Proof. exact (isinstance_Exception (mkExc c msg)). Qed.

Lemma TimeoutExpired_is_Exception (e : BaseExc) :
  isinstance_any e TimeoutExpired = true -> isinstance_any e Exception = true.
Proof.
  destruct e as [[| | | c] msg]; cbn [isinstance_any bexc_class];
    try discriminate.
  intros _. apply (isinstance_Exception (mkExc c msg)).
Qed.

Lemma io_print_taken (text : string) (s : State) :
  print_raises Stdout text (world s) = None ->
  io_print text s = (Returned tt, printed s [text]).
Proof. intro H. unfold io_print, io_print_to. now rewrite H. Qed.

Lemma io_print_err_taken (text : string) (s : State) :
  print_raises Stderr text (world s) = None ->
  io_print_err text s =
    (Returned tt, mkState (world s) (sys_stdout s) (sys_stderr s ++ [text])).
Proof. intro H. unfold io_print_err, io_print_to. now rewrite H. Qed.

Lemma io_print_to_refused (st : Stream) (text : string) (s : State)
    (e : BaseExc) :
  print_raises st text (world s) = Some e ->
  io_print_to st text s = (Raising e, s).
Proof. intro H. unfold io_print_to. now rewrite H. Qed.

Lemma run_command_full_header (cmd description : string) (s : State) :
  header_printed description (world s) ->
  run_command_full cmd description s =
    try_block cmd (printed s (test_header description)).
Proof.
  unfold header_printed, test_header. intro H.
  pose proof (Forall_inv H) as H1.
  pose proof (Forall_inv (Forall_inv_tail H)) as H2.
  pose proof (Forall_inv (Forall_inv_tail (Forall_inv_tail H))) as H3.
  cbv beta in H1, H2, H3.
  assert (E1 : io_print (PyStr.nl ++ rule) s
               = (Returned tt, printed s [(PyStr.nl ++ rule)%string]))
    by (apply io_print_taken; exact H1).
  assert (E2 : io_print ("[TEST] " ++ description)
                 (printed s [(PyStr.nl ++ rule)%string])
               = (Returned tt,
                  printed (printed s [(PyStr.nl ++ rule)%string])
                    [("[TEST] " ++ description)%string]))
    by (apply io_print_taken; exact H2).
  assert (E3 : io_print rule
                 (printed (printed s [(PyStr.nl ++ rule)%string])
                    [("[TEST] " ++ description)%string])
               = (Returned tt,
                  printed
                    (printed (printed s [(PyStr.nl ++ rule)%string])
                       [("[TEST] " ++ description)%string]) [rule]))
    by (apply io_print_taken; exact H3).
  unfold run_command_full, io_bind. rewrite E1, E2, E3.
  now rewrite !printed_printed.
Qed.

(** The two [except] clauses of [run_command], for any body. *)
Lemma except_clauses_handle (body : IO bool) (s s' : State) (e : BaseExc) :
  body s = (Raising e, s') ->
  io_try_except body
    [ (TimeoutExpired,
       fun _ => io_print "ERROR: Command timed out" ~; io_ret false);
      (Exception,
       fun e => io_print ("ERROR: " ++ bexc_str e) ~; io_ret false) ] s
  = handle e s'.
Proof.
  intro H. unfold io_try_except. rewrite H. cbn [io_find_handler].
  unfold handle, handler_line.
  destruct (isinstance_any e TimeoutExpired) eqn:Ht.
  - now rewrite (TimeoutExpired_is_Exception _ Ht).
  - now destruct (isinstance_any e Exception).
Qed.

Lemma except_clauses_returned (body : IO bool) (s s' : State) (b : bool)
    (clauses : list (ExcClass * (BaseExc -> IO bool))) :
  body s = (Returned b, s') ->
  io_try_except body clauses s = (Returned b, s').
Proof. intro H. unfold io_try_except. now rewrite H. Qed.

Lemma handle_caught (e : BaseExc) (st : State) :
  isinstance_any e Exception = true ->
  print_raises Stdout (handler_line e) (world st) = None ->
  handle e st = (Returned false, printed st [handler_line e]).
Proof.
  intros He Hp. unfold handle, io_bind. rewrite He.
  now rewrite (io_print_taken _ _ Hp).
Qed.

Lemma handle_uncaught (e : BaseExc) (st : State) :
  isinstance_any e Exception = false -> handle e st = (Raising e, st).
Proof. intro He. unfold handle. now rewrite He. Qed.

Lemma handle_keeps (e : BaseExc) (st : State) :
  world (snd (handle e st)) = world st
  /\ sys_stderr (snd (handle e st)) = sys_stderr st.
Proof.
  unfold handle. destruct (isinstance_any e Exception); [| now split].
  unfold io_bind, io_print, io_print_to, io_ret.
  destruct (print_raises Stdout (handler_line e) (world st)); now split.
Qed.

(** The [try] statement when the command completed and its captured text
    was printed. *)
Lemma try_block_completed (cmd : string) (s : State) (p : CompletedProcess)
    (w : World) :
  subprocess_run_any cmd 60 (world s) = (Returned p, w) ->
  output_printed p w ->
  try_block cmd s =
    (Returned (returncode p =? 0)%Z,
     mkState w
       (sys_stdout s ++ (if PyStr.truthy (stdout p) then [stdout p] else []))
       (sys_stderr s
          ++ (if PyStr.truthy (stderr p) then [stderr p] else []))).
Proof.
  intros H [Hout Herr]. unfold try_block. apply except_clauses_returned.
  unfold io_bind, io_run, io_when. rewrite H.
  set (s0 := mkState w (sys_stdout s) (sys_stderr s)).
  destruct (PyStr.truthy (stdout p)) eqn:Eo;
    destruct (PyStr.truthy (stderr p)) eqn:Ee.
  - rewrite (io_print_taken (stdout p) s0 (Hout eq_refl)).
    rewrite (io_print_err_taken (stderr p) (printed s0 [stdout p])
               (Herr eq_refl)).
    reflexivity.
  - rewrite (io_print_taken (stdout p) s0 (Hout eq_refl)).
    unfold io_ret, printed, s0. cbn [world sys_stdout sys_stderr].
    now rewrite app_nil_r.
  - unfold io_ret at 1.
    rewrite (io_print_err_taken (stderr p) s0 (Herr eq_refl)).
    unfold io_ret, s0. cbn [world sys_stdout sys_stderr].
    now rewrite app_nil_r.
  - unfold io_ret, s0. now rewrite !app_nil_r.
Qed.

(** The [try] statement when [subprocess.run] raises. *)
Lemma try_block_raising (cmd : string) (s : State) (e : BaseExc) (w : World) :
  subprocess_run_any cmd 60 (world s) = (Raising e, w) ->
  try_block cmd s = handle e (mkState w (sys_stdout s) (sys_stderr s)).
Proof.
  intro H. unfold try_block. apply except_clauses_handle.
  unfold io_bind, io_run. now rewrite H.
Qed.

(** The [try] statement when the [print] of the captured stdout raises: the
    stderr is not printed, and the exception goes to the [except]
    clauses. *)
Lemma try_block_stdout_refused (cmd : string) (s : State)
    (p : CompletedProcess) (w : World) (e : BaseExc) :
  subprocess_run_any cmd 60 (world s) = (Returned p, w) ->
  PyStr.truthy (stdout p) = true ->
  print_raises Stdout (stdout p) w = Some e ->
  try_block cmd s = handle e (mkState w (sys_stdout s) (sys_stderr s)).
Proof.
  intros H Ht Hp. unfold try_block. apply except_clauses_handle.
  unfold io_bind, io_run, io_when. rewrite H, Ht. unfold io_print.
  now rewrite (io_print_to_refused Stdout (stdout p)
                 (mkState w (sys_stdout s) (sys_stderr s)) e Hp).
Qed.

(** The [try] statement when the captured stdout was printed, or was
    empty, and the [print] of the captured stderr raises. *)
Lemma try_block_stderr_refused (cmd : string) (s : State)
    (p : CompletedProcess) (w : World) (e : BaseExc) :
  subprocess_run_any cmd 60 (world s) = (Returned p, w) ->
  (PyStr.truthy (stdout p) = true -> print_raises Stdout (stdout p) w = None) ->
  PyStr.truthy (stderr p) = true ->
  print_raises Stderr (stderr p) w = Some e ->
  try_block cmd s =
    handle e
      (mkState w
         (sys_stdout s ++ (if PyStr.truthy (stdout p) then [stdout p] else []))
         (sys_stderr s)).
Proof.
  intros H Hout Ht Hp. unfold try_block. apply except_clauses_handle.
  unfold io_bind, io_run, io_when. rewrite H, Ht.
  set (s0 := mkState w (sys_stdout s) (sys_stderr s)).
  destruct (PyStr.truthy (stdout p)).
  - rewrite (io_print_taken (stdout p) s0 (Hout eq_refl)).
    unfold io_print_err.
    now rewrite (io_print_to_refused Stderr (stderr p)
                   (printed s0 [stdout p]) e Hp).
  - unfold io_ret at 1. unfold io_print_err.
    rewrite (io_print_to_refused Stderr (stderr p) s0 e Hp).
    unfold s0. now rewrite app_nil_r.
Qed.

(** One step of the driver, when [run_command] returned. *)
Lemma checks_then_full_step {A : Type} (c : Check) (rest : list Check)
    (d : dict) (k : dict -> IO A) (s s1 : State) (r : bool) :
  run_command_full (check_cmd c) (check_description c) s = (Returned r, s1) ->
  checks_then_full (c :: rest) d k s =
    checks_then_full rest (dict_set (check_name c) r d) k s1.
Proof. intro H. cbn [checks_then_full]. unfold io_bind. now rewrite H. Qed.

(** C2 (as the code has it).  When [subprocess.run] returns a completed
    process and the console takes what [run_command] prints of it,
    [run_command] returns [True] exactly when the exit status is zero, and
    the driver stores that boolean under the name of the check.  When the
    [print] of the captured stdout raises an [Exception], the [except]
    clause reports it and [run_command] returns [False], whatever the exit
    status. *)
Theorem exit_status_decides_when_output_is_printed
    (cmd description : string) (s : State) (p : CompletedProcess)
    (w : World) :
  header_printed description (world s) ->
  subprocess_run_any cmd 60 (world s) = (Returned p, w) ->
  (output_printed p w ->
   exists s1,
     run_command_full cmd description s =
       (Returned (returncode p =? 0)%Z, s1)
     /\ (fst (run_command_full cmd description s) = Returned true
         <-> returncode p = 0%Z)
     /\ (fst (run_command_full cmd description s) = Returned false
         <-> returncode p <> 0%Z)
     /\ forall (name : string) (rest : list Check) (d : dict),
          (forall (A : Type) (k : dict -> IO A),
             checks_then_full (mkCheck name cmd description :: rest) d k s =
               checks_then_full rest
                 (dict_set name (returncode p =? 0)%Z d) k s1)
          /\ dict_get name (dict_set name (returncode p =? 0)%Z d) =
               Some (returncode p =? 0)%Z)
  /\ (forall e,
        PyStr.truthy (stdout p) = true ->
        print_raises Stdout (stdout p) w = Some e ->
        isinstance_any e Exception = true ->
        print_raises Stdout (handler_line e) w = None ->
        run_command_full cmd description s =
          (Returned false,
           mkState w
             (sys_stdout s ++ test_header description ++ [handler_line e])
             (sys_stderr s))).
Proof.
  intros Hh H. rewrite (run_command_full_header _ _ _ Hh). split.
  - intro Ho.
    pose proof (try_block_completed cmd
                  (printed s (test_header description)) p w H Ho) as Hr.
    eexists. split; [exact Hr |]. rewrite Hr. cbn [fst].
    split; [| split].
    + rewrite <- Z.eqb_eq. split; intro E; [now injection E | now rewrite E].
    + rewrite <- Z.eqb_neq. split; intro E; [now injection E | now rewrite E].
    + intros name rest d. split; [| apply dict_get_set].
      intros A k. apply (checks_then_full_step (mkCheck name cmd description)).
      cbn [check_cmd check_description].
      rewrite (run_command_full_header _ _ _ Hh). exact Hr.
  - intros e Ht Hp He Hl.
    rewrite (try_block_stdout_refused cmd
               (printed s (test_header description)) p w e H Ht Hp).
    rewrite handle_caught; [| exact He | exact Hl]. unfold printed.
    cbn [world sys_stdout sys_stderr]. now rewrite <- app_assoc.
Qed.

(** C5 (as the code has it).  When the console takes the header, and
    whatever is raised inside the [try] (by [subprocess.run]: the timeout, a
    missing shell, any other exception; or by a [print] of the captured
    text) derives from [Exception] and can be reported, [run_command]
    returns a boolean and the driver goes on with it: nothing reaches the
    loop over the checks. *)
Theorem run_command_full_catches_Exception (cmd description : string)
    (s : State) :
  header_printed description (world s) ->
  (forall e,
     raised_in_try cmd (world s) e ->
     isinstance_any e Exception = true
     /\ print_raises Stdout (handler_line e)
          (snd (subprocess_run_any cmd 60 (world s))) = None) ->
  (exists r s1,
     run_command_full cmd description s = (Returned r, s1)
     /\ (r = true \/ r = false)
     /\ world s1 = snd (subprocess_run_any cmd 60 (world s))
     /\ forall (name : string) (rest : list Check) (d : dict) (A : Type)
               (k : dict -> IO A),
          checks_then_full (mkCheck name cmd description :: rest) d k s =
            checks_then_full rest (dict_set name r d) k s1)
  /\ (forall e s1, run_command_full cmd description s <> (Raising e, s1)).
Proof.
  intros Hh Hexc.
  assert (Hret : exists r s1,
             run_command_full cmd description s = (Returned r, s1)
             /\ world s1 = snd (subprocess_run_any cmd 60 (world s))).
  { rewrite (run_command_full_header _ _ _ Hh).
    set (s0 := printed s (test_header description)).
    unfold raised_in_try in Hexc.
    destruct (subprocess_run_any cmd 60 (world s)) as [[p | e] w] eqn:H;
      cbn [snd] in *.
    - destruct (PyStr.truthy (stdout p)) eqn:To;
        [destruct (print_raises Stdout (stdout p) w) as [e |] eqn:Po |].
      + destruct (Hexc e (or_introl (conj eq_refl eq_refl))) as [He Hl].
        rewrite (try_block_stdout_refused cmd s0 p w e H To Po).
        rewrite handle_caught; [| exact He | exact Hl]. eexists; eexists.
        split; reflexivity.
      + destruct (PyStr.truthy (stderr p)) eqn:Te;
          [destruct (print_raises Stderr (stderr p) w) as [e |] eqn:Pe |].
        * destruct (Hexc e (or_intror (conj eq_refl eq_refl))) as [He Hl].
          rewrite (try_block_stderr_refused cmd s0 p w e H
                     (fun _ => Po) Te Pe).
          rewrite handle_caught; [| exact He | exact Hl]. eexists; eexists.
          split; reflexivity.
        * rewrite (try_block_completed cmd s0 p w H).
          -- eexists; eexists. split; reflexivity.
          -- split; intros _; [exact Po | exact Pe].
        * rewrite (try_block_completed cmd s0 p w H).
          -- eexists; eexists. split; reflexivity.
          -- split; intro E; [exact Po | rewrite Te in E; discriminate E].
      + destruct (PyStr.truthy (stderr p)) eqn:Te;
          [destruct (print_raises Stderr (stderr p) w) as [e |] eqn:Pe |].
        * destruct (Hexc e (or_intror (conj eq_refl eq_refl))) as [He Hl].
          rewrite (try_block_stderr_refused cmd s0 p w e H).
          -- rewrite handle_caught; [| exact He | exact Hl]. eexists; eexists.
             split; reflexivity.
          -- intro E. rewrite To in E. discriminate E.
          -- exact Te.
          -- exact Pe.
        * rewrite (try_block_completed cmd s0 p w H).
          -- eexists; eexists. split; reflexivity.
          -- split; intro E; [rewrite To in E; discriminate E | exact Pe].
        * rewrite (try_block_completed cmd s0 p w H).
          -- eexists; eexists. split; reflexivity.
          -- split; intro E; [rewrite To in E | rewrite Te in E];
               discriminate E.
    - destruct (Hexc e eq_refl) as [He Hl].
      rewrite (try_block_raising cmd s0 e w H).
      rewrite handle_caught; [| exact He | exact Hl]. eexists; eexists.
      split; reflexivity. }
  destruct Hret as [r [s1 [Hr Hw]]]. split.
  - exists r, s1. split; [exact Hr |].
    split; [destruct r; [now left | now right] |].
    split; [exact Hw |].
    intros name rest d A k.
    now apply (checks_then_full_step (mkCheck name cmd description)).
  - intros e s2 Habs. rewrite Hr in Habs. discriminate Habs.
Qed.


(** ** Further properties of [test-frontend.py] *)

Lemma outcomes_world (cs : list Check) (s : State) :
  exists rs s',
    outcomes cs s = (Ret rs, s') /\ world s' = world_after cs (world s).
Proof.
  revert s. induction cs as [| c rest IH]; intro s.
  - exists [], s. split; reflexivity.
  - destruct (run_command_returns (check_cmd c) (check_description c) s)
      as [s1 [Hr Hw]].
    destruct (IH s1) as [rs [s2 [Ho Hw2]]].
    eexists; exists s2. split.
    + exact (outcomes_step _ _ _ _ _ _ _ Hr Ho).
    + cbn [world_after]. now rewrite <- Hw.
Qed.

(** X1. A run of [main] executes the command of each check exactly once, in
    the declared order and with the 60 second timeout, and runs nothing
    else: the world it leaves is the one those executions leave, whichever
    of them fail or raise. *)
Theorem checks_run_once_in_order (cs : list Check) (s : State) :
  world (snd (main_of cs s)) = world_after cs (world s)
  /\ world (snd (main s)) = world_after declared_checks (world s).
Proof.
  assert (H : forall cs0, world (snd (main_of cs0 s))
                          = world_after cs0 (world s)).
  { intro cs0.
    destruct (main_of_returns cs0 s) as [rs [s1 [Ho [_ Hm]]]].
    destruct (outcomes_world cs0 (printed s header_lines))
      as [rs' [s' [Ho' Hw']]].
    rewrite Ho' in Ho. injection Ho as _ <-.
    rewrite Hm. exact Hw'. }
  split; [apply H |]. rewrite main_is_main_of. apply H.
Qed.

(** X4. [run_command] writes nothing of its own to [sys.stderr]: after a
    call, [sys.stderr] holds what it held before, or that and the captured
    stderr of the command, and the latter only when the command completed
    with a non-empty stderr.  What it has to say about a timeout or another
    exception goes to [sys.stdout].  This holds whatever the console and
    [subprocess.run] raise. *)
Theorem nothing_of_its_own_on_stderr (cmd description : string) (s : State) :
  sys_stderr (snd (run_command_full cmd description s)) = sys_stderr s
  \/ exists p w,
       subprocess_run_any cmd 60 (world s) = (Returned p, w)
       /\ PyStr.truthy (stderr p) = true
       /\ sys_stderr (snd (run_command_full cmd description s)) =
            sys_stderr s ++ [stderr p].
Proof.
  assert (Htry : forall s0,
             sys_stderr (snd (try_block cmd s0)) = sys_stderr s0
             \/ exists p w,
                  subprocess_run_any cmd 60 (world s0) = (Returned p, w)
                  /\ PyStr.truthy (stderr p) = true
                  /\ sys_stderr (snd (try_block cmd s0)) =
                       sys_stderr s0 ++ [stderr p]).
  { intro s0.
    destruct (subprocess_run_any cmd 60 (world s0)) as [[p | e] w] eqn:H.
    - destruct (PyStr.truthy (stdout p)) eqn:To;
        [destruct (print_raises Stdout (stdout p) w) as [e |] eqn:Po |].
      + left. rewrite (try_block_stdout_refused cmd s0 p w e H To Po).
        now rewrite (proj2 (handle_keeps _ _)).
      + destruct (PyStr.truthy (stderr p)) eqn:Te;
          [destruct (print_raises Stderr (stderr p) w) as [e |] eqn:Pe |].
        * left.
          rewrite (try_block_stderr_refused cmd s0 p w e H
                     (fun _ => Po) Te Pe).
          now rewrite (proj2 (handle_keeps _ _)).
        * right. exists p, w. split; [reflexivity |]. split; [exact Te |].
          rewrite (try_block_completed cmd s0 p w H).
          -- cbn [snd sys_stderr]. now rewrite Te.
          -- split; intros _; [exact Po | exact Pe].
        * left. rewrite (try_block_completed cmd s0 p w H).
          -- cbn [snd sys_stderr]. rewrite Te. now rewrite app_nil_r.
          -- split; intro E; [exact Po | rewrite Te in E; discriminate E].
      + destruct (PyStr.truthy (stderr p)) eqn:Te;
          [destruct (print_raises Stderr (stderr p) w) as [e |] eqn:Pe |].
        * left. rewrite (try_block_stderr_refused cmd s0 p w e H).
          -- now rewrite (proj2 (handle_keeps _ _)).
          -- intro E. rewrite To in E. discriminate E.
          -- exact Te.
          -- exact Pe.
        * right. exists p, w. split; [reflexivity |]. split; [exact Te |].
          rewrite (try_block_completed cmd s0 p w H).
          -- cbn [snd sys_stderr]. now rewrite Te.
          -- split; intro E; [rewrite To in E; discriminate E | exact Pe].
        * left. rewrite (try_block_completed cmd s0 p w H).
          -- cbn [snd sys_stderr]. rewrite Te. now rewrite app_nil_r.
          -- split; intro E; [rewrite To in E | rewrite Te in E];
               discriminate E.
    - left. rewrite (try_block_raising cmd s0 e w H).
      now rewrite (proj2 (handle_keeps _ _)). }
  unfold run_command_full, io_bind.
  destruct (print_raises Stdout (PyStr.nl ++ rule) (world s)) as [e |] eqn:E1.
  { left. unfold io_print at 1.
    now rewrite (io_print_to_refused Stdout _ s e E1). }
  rewrite (io_print_taken _ s E1).
  set (s1 := printed s [(PyStr.nl ++ rule)%string]).
  destruct (print_raises Stdout ("[TEST] " ++ description) (world s1))
    as [e |] eqn:E2.
  { left. unfold io_print at 1.
    now rewrite (io_print_to_refused Stdout _ s1 e E2). }
  rewrite (io_print_taken _ s1 E2).
  set (s2 := printed s1 [("[TEST] " ++ description)%string]).
  destruct (print_raises Stdout rule (world s2)) as [e |] eqn:E3.
  { left. unfold io_print at 1.
    now rewrite (io_print_to_refused Stdout _ s2 e E3). }
  rewrite (io_print_taken _ s2 E3).
  exact (Htry (printed s2 [rule])).
Qed.

End Runner.

Arguments mkState {World} world sys_stdout sys_stderr.
Arguments world {World} s.
Arguments sys_stdout {World} s.
Arguments sys_stderr {World} s.
Arguments printed {World} s lines.
Arguments run_command {World} subprocess_run cmd description _.
Arguments summary {World} results _.
Arguments collect {World} subprocess_run cs results _.
Arguments outcomes {World} subprocess_run cs _.
Arguments main_of {World} subprocess_run cs _.
Arguments main {World} subprocess_run _.
Arguments exit_code {World} subprocess_run s.

(** ** The scripted executor realises every assignment of outcomes *)

Lemma scripted_outcomes (cs : list Check) (rs : list bool)
    (out err : list string) :
  length rs = length cs ->
  fst (outcomes Scripted.subprocess_run cs
         (mkState (Scripted.of_verdicts rs) out err)) = Ret rs.
Proof.
  revert rs out err. induction cs as [| c rest IH]; intros [| r rs] out err Hl;
    try discriminate Hl; [reflexivity |].
  cbn [outcomes]. unfold bind.
  rewrite (run_command_completed Scripted.World Scripted.subprocess_run
             (check_cmd c) (check_description c)
             (mkState (Scripted.of_verdicts (r :: rs)) out err)
             (mkCompleted (if r then 0 else 1) EmptyString EmptyString)
             (Scripted.of_verdicts rs) eq_refl).
  cbn [returncode stdout stderr PyStr.truthy sys_stdout sys_stderr].
  specialize (IH rs (out ++ test_header (check_description c) ++ [])
                (err ++ []) ltac:(now injection Hl)).
  destruct (outcomes Scripted.subprocess_run rest _) as [[rs' | e] s2];
    cbn [fst] in IH; [| discriminate IH].
  injection IH as ->. unfold ret. cbn [fst]. destruct r; reflexivity.
Qed.

Example all_nine_pass :
  exit_code Scripted.subprocess_run
    (mkState (Scripted.of_verdicts
                [true; true; true; true; true; true; true; true; true])
       [] []) = 0%Z.
Proof. vm_compute. reflexivity. Qed.

Example build_fails :
  exit_code Scripted.subprocess_run
    (mkState (Scripted.of_verdicts
                [true; true; true; true; true; false; true; true; true])
       [] []) = 1%Z.
Proof. vm_compute. reflexivity. Qed.

Example build_times_out :
  exit_code Scripted.subprocess_run
    (mkState ([Scripted.silent 0; Scripted.silent 0; Scripted.silent 0;
               Scripted.silent 0; Scripted.silent 0; Scripted.timeout])
       [] []) = 1%Z.
Proof. vm_compute. reflexivity. Qed.

(** ** The claims on concrete runs *)

Lemma timeout_fails_the_check_only_witness :
  Scripted.subprocess_run "npm run build 2>&1 | tail -50" 60
    (world (mkState [Scripted.timeout; Scripted.silent 0] [] []))
    = (Scripted.timeout, [Scripted.silent 0])
  /\ fst (outcomes Scripted.subprocess_run
            [mkCheck "build" "npm run build 2>&1 | tail -50"
               "Building Next.js project";
             mkCheck "lint" "npm run lint 2>&1 | head -50" "Running ESLint"]
            (mkState [Scripted.timeout; Scripted.silent 0] [] []))
     = Ret [false; true].
Proof.
  split; [reflexivity |].
  destruct (timeout_fails_the_check_only Scripted.World
              Scripted.subprocess_run
              (mkCheck "build" "npm run build 2>&1 | tail -50"
                 "Building Next.js project")
              [mkCheck "lint" "npm run lint 2>&1 | head -50" "Running ESLint"]
              []
              (mkState [Scripted.timeout; Scripted.silent 0] [] [])
              (mkExc TimeoutExpired
                 "Command 'npm run build' timed out after 60 seconds")
              [Scripted.silent 0] eq_refl eq_refl)
    as [s1 [Hr [_ [_ [_ [rs [s2 [Ho [_ H]]]]]]]]].
  rewrite H. cbn [fst].
  injection Hr as <-. vm_compute in Ho. injection Ho as <- _. reflexivity.
Defined.

(** C4, as stated, fails when two checks share a name: the second result
    replaces the first in the dict, so two declared checks give a total of
    one and the summary reads 1/1. *)
Lemma same_name_counted_once :
  fst (collect Scripted.subprocess_run
         [mkCheck "lint" "npm run lint" "Running ESLint";
          mkCheck "lint" "npx eslint ." "Running ESLint on everything"]
         [] (mkState [] [] []))
    = Ret [("lint", true)]
  /\ length [mkCheck "lint" "npm run lint" "Running ESLint";
             mkCheck "lint" "npx eslint ." "Running ESLint on everything"] = 2
  /\ total [("lint", true)] = 1
  /\ nth_error
       (rev (sys_stdout
               (snd (main_of Scripted.subprocess_run
                       [mkCheck "lint" "npm run lint" "Running ESLint";
                        mkCheck "lint" "npx eslint ."
                          "Running ESLint on everything"]
                       (mkState [] [] [])))))
       1
     = Some (PyStr.nl ++ "Total: 1/1 tests passed")%string.
Proof. vm_compute. repeat split. Qed.

Lemma tally_counts_every_distinct_check_witness :
  NoDup (map check_name
           [mkCheck "node_check" "node --version" "Checking Node.js";
            mkCheck "lint" "npm run lint" "Running ESLint";
            mkCheck "build" "npm run build" "Building Next.js project"])
  /\ sys_exit
       (fst (main_of Scripted.subprocess_run
               [mkCheck "node_check" "node --version" "Checking Node.js";
                mkCheck "lint" "npm run lint" "Running ESLint";
                mkCheck "build" "npm run build" "Building Next.js project"]
               (mkState (Scripted.of_verdicts [true; false; true]) [] [])))
     = 1%Z
  /\ exists out banner,
       sys_stdout
         (snd (main_of Scripted.subprocess_run
                 [mkCheck "node_check" "node --version" "Checking Node.js";
                  mkCheck "lint" "npm run lint" "Running ESLint";
                  mkCheck "build" "npm run build" "Building Next.js project"]
                 (mkState (Scripted.of_verdicts [true; false; true]) [] [])))
       = out ++ [(PyStr.nl ++ "Total: 2/3 tests passed")%string; banner].
Proof.
  assert (Hnd : NoDup (map check_name
           [mkCheck "node_check" "node --version" "Checking Node.js";
            mkCheck "lint" "npm run lint" "Running ESLint";
            mkCheck "build" "npm run build" "Building Next.js project"])).
  { cbn [map check_name].
    repeat (constructor; [cbn [In]; intuition discriminate |]).
    constructor. }
  split; [exact Hnd |].
  destruct (tally_counts_every_distinct_check Scripted.World
              Scripted.subprocess_run
              [mkCheck "node_check" "node --version" "Checking Node.js";
               mkCheck "lint" "npm run lint" "Running ESLint";
               mkCheck "build" "npm run build" "Building Next.js project"]
              (mkState (Scripted.of_verdicts [true; false; true]) [] [])
              Hnd)
    as [rs [s1 [Ho [_ [_ [_ [_ [_ Hex]]]]]]]].
  apply Hex. vm_compute in Ho. injection Ho as <- _. reflexivity.
Defined.

Lemma summary_ignores_order_witness :
  Permutation [("lint", false); ("build", true); ("types_check", true)]
              [("build", true); ("lint", false); ("types_check", true)]
  /\ passed [("lint", false); ("build", true); ("types_check", true)] = 2
  /\ passed [("build", true); ("lint", false); ("types_check", true)] = 2
  /\ fst (summary [("lint", false); ("build", true); ("types_check", true)]
            (mkState tt [] []))
     = fst (summary [("build", true); ("lint", false); ("types_check", true)]
              (mkState tt [] [])).
Proof.
  split; [apply perm_swap |]. split; [reflexivity |]. split; [reflexivity |].
  apply (summary_ignores_order unit
           [("lint", false); ("build", true); ("types_check", true)]
           [("build", true); ("lint", false); ("types_check", true)]
           (mkState tt [] []) (perm_swap _ _ _)).
Defined.

Arguments world_after {World} subprocess_run cs w.
Arguments git {World} subprocess_run_in cmd w.
Arguments git_ok {World} subprocess_run_in cmd w.
Arguments git_then {World} subprocess_run_in cmd w.
Arguments git_diff {World} subprocess_run_in w.
Arguments staged_world {World} subprocess_run_in w.
Arguments git_push_run_command {World} subprocess_run_in cmd description _.
Arguments git_push_main {World} subprocess_run_in _.
Arguments git_push_exit_code {World} subprocess_run_in s.
Arguments verify_build {World} os_chdir subprocess_run_argv _.
Arguments verify_build_exit_code {World} os_chdir subprocess_run_argv s.

(** ** Recorded runs of the three scripts *)

Example frontend_commands_in_order :
  snd (world (snd (main Recorded.subprocess_run (mkState ([], []) [] []))))
    = map check_cmd declared_checks.
Proof. vm_compute. reflexivity. Qed.

Example git_push_all_goes_well :
  snd (world (snd (git_push_main Recorded.subprocess_run_in
                     (mkState
                        ([Scripted.silent 0; Scripted.silent 0;
                          Scripted.silent 1], []) [] []))))
    = ["git status"; "git add ."; "git diff --cached --quiet";
       commit_command; "git push origin medi-sync-ai-api"]
  /\ git_push_exit_code Recorded.subprocess_run_in
       (mkState
          ([Scripted.silent 0; Scripted.silent 0; Scripted.silent 1], [])
          [] []) = 0%Z.
Proof. vm_compute. split; reflexivity. Qed.

Example git_push_both_pushes_fail :
  snd (world (snd (git_push_main Recorded.subprocess_run_in
                     (mkState
                        ([Scripted.silent 0; Scripted.silent 0;
                          Scripted.silent 1; Scripted.silent 0;
                          Recorded.exited 128 EmptyString
                            "fatal: unable to access the remote";
                          Recorded.exited 128 EmptyString
                            "fatal: unable to access the remote"], [])
                        [] []))))
    = ["git status"; "git add ."; "git diff --cached --quiet";
       commit_command; "git push origin medi-sync-ai-api";
       "git push --set-upstream origin medi-sync-ai-api"]
  /\ git_push_exit_code Recorded.subprocess_run_in
       (mkState
          ([Scripted.silent 0; Scripted.silent 0; Scripted.silent 1;
            Scripted.silent 0;
            Recorded.exited 128 EmptyString
              "fatal: unable to access the remote";
            Recorded.exited 128 EmptyString
              "fatal: unable to access the remote"], [])
          [] []) = 0%Z.
Proof. vm_compute. split; reflexivity. Qed.

Example verify_build_prints_an_empty_stdout :
  sys_stdout (snd (verify_build Recorded.os_chdir Recorded.subprocess_run_argv
                     (mkState ([Scripted.silent 0], []) [] [])))
    = ["[BUILD TEST] Starting Next.js build verification...";
       PyStr.mul "=" 60;
       EmptyString;
       PyStr.mul "=" 60;
       "[BUILD TEST] ✅ BUILD SUCCESSFUL - No TypeScript errors!";
       PyStr.mul "=" 60].
Proof. vm_compute. reflexivity. Qed.

(** ** The further properties on concrete runs *)

Lemma tally_is_N_iff_names_distinct_witness :
  length [true; false]
    = length [mkCheck "lint" "npm run lint" "Running ESLint";
              mkCheck "lint" "npx eslint ." "Running ESLint on everything"]
  /\ total (results_of
              [mkCheck "lint" "npm run lint" "Running ESLint";
               mkCheck "lint" "npx eslint ." "Running ESLint on everything"]
              [true; false]) <= 2
  /\ ~ NoDup ["lint"; "lint"].
Proof.
  split; [reflexivity |].
  destruct (tally_is_N_iff_names_distinct
              [mkCheck "lint" "npm run lint" "Running ESLint";
               mkCheck "lint" "npx eslint ." "Running ESLint on everything"]
              [true; false] eq_refl) as [_ [Hle Hiff]].
  split; [exact Hle |].
  intro Hnd. apply Hiff in Hnd. vm_compute in Hnd. discriminate Hnd.
Defined.

Lemma staging_failure_stops_the_deployment_witness :
  git_ok Recorded.subprocess_run_in "git add ."
    (git_then Recorded.subprocess_run_in "git status"
       (world (mkState
                 ([Scripted.silent 0;
                   Recorded.exited 128 EmptyString
                     "fatal: not a git repository"], []) [] [])))
    = false
  /\ exists s',
       git_push_main Recorded.subprocess_run_in
         (mkState
            ([Scripted.silent 0;
              Recorded.exited 128 EmptyString
                "fatal: not a git repository"], []) [] [])
         = (Ret false, s')
       /\ snd (world s') = ["git status"; "git add ."].
Proof.
  split; [reflexivity |].
  destruct (staging_failure_stops_the_deployment Recorded.World
              Recorded.subprocess_run_in
              (mkState
                 ([Scripted.silent 0;
                   Recorded.exited 128 EmptyString
                     "fatal: not a git repository"], []) [] [])
              eq_refl) as [s' [E [Hw _]]].
  exists s'. split; [exact E |]. rewrite Hw. reflexivity.
Defined.

Lemma diff_failure_is_not_caught_witness :
  git_ok Recorded.subprocess_run_in "git add ."
    (git_then Recorded.subprocess_run_in "git status"
       (world (mkState
                 ([Scripted.silent 0; Scripted.silent 0; Scripted.no_shell],
                  []) [] [])))
    = true
  /\ fst (git_push_main Recorded.subprocess_run_in
            (mkState
               ([Scripted.silent 0; Scripted.silent 0; Scripted.no_shell],
                []) [] []))
     = Raise (mkExc FileNotFoundError
                "[Errno 2] No such file or directory: '/bin/sh'").
Proof.
  split; [reflexivity |].
  destruct (diff_failure_is_not_caught Recorded.World
              Recorded.subprocess_run_in
              (mkState
                 ([Scripted.silent 0; Scripted.silent 0; Scripted.no_shell],
                  []) [] [])
              (mkExc FileNotFoundError
                 "[Errno 2] No such file or directory: '/bin/sh'")
              ([], ["git status"; "git add ."; "git diff --cached --quiet"])
              eq_refl eq_refl) as [s' [E _]].
  rewrite E. reflexivity.
Defined.

Lemma nothing_to_commit_is_success_witness :
  git_diff Recorded.subprocess_run_in
    (staged_world Recorded.subprocess_run_in
       (world (mkState ([], []) [] [])))
    = (Scripted.silent 0,
       ([], ["git status"; "git add ."; "git diff --cached --quiet"]))
  /\ exists s',
       git_push_main Recorded.subprocess_run_in (mkState ([], []) [] [])
         = (Ret true, s')
       /\ snd (world s')
            = ["git status"; "git add ."; "git diff --cached --quiet"].
Proof.
  split; [reflexivity |].
  destruct (nothing_to_commit_is_success Recorded.World
              Recorded.subprocess_run_in (mkState ([], []) [] [])
              (mkCompleted 0 EmptyString EmptyString)
              ([], ["git status"; "git add ."; "git diff --cached --quiet"])
              eq_refl eq_refl eq_refl) as [s' [E [Hw _]]].
  exists s'. split; [exact E |]. rewrite Hw. reflexivity.
Defined.

Lemma commit_failure_stops_before_push_witness :
  git_ok Recorded.subprocess_run_in commit_command
    ([Recorded.exited 1 EmptyString "error: gpg failed to sign the data"],
     ["git status"; "git add ."; "git diff --cached --quiet"])
    = false
  /\ exists s',
       git_push_main Recorded.subprocess_run_in
         (mkState
            ([Scripted.silent 0; Scripted.silent 0; Scripted.silent 1;
              Recorded.exited 1 EmptyString
                "error: gpg failed to sign the data"], []) [] [])
         = (Ret false, s')
       /\ snd (world s')
            = ["git status"; "git add ."; "git diff --cached --quiet";
               commit_command].
Proof.
  split; [reflexivity |].
  destruct (commit_failure_stops_before_push Recorded.World
              Recorded.subprocess_run_in
              (mkState
                 ([Scripted.silent 0; Scripted.silent 0; Scripted.silent 1;
                   Recorded.exited 1 EmptyString
                     "error: gpg failed to sign the data"], []) [] [])
              (mkCompleted 1 EmptyString EmptyString)
              ([Recorded.exited 1 EmptyString
                  "error: gpg failed to sign the data"],
               ["git status"; "git add ."; "git diff --cached --quiet"])
              eq_refl eq_refl ltac:(discriminate) eq_refl)
    as [s' [E [Hw _]]].
  exists s'. split; [exact E |]. rewrite Hw. reflexivity.
Defined.

Lemma push_failure_is_reported_as_success_witness :
  git_ok Recorded.subprocess_run_in commit_command
    ([Scripted.silent 0;
      Recorded.exited 128 EmptyString "fatal: unable to access the remote";
      Recorded.exited 128 EmptyString "fatal: unable to access the remote"],
     ["git status"; "git add ."; "git diff --cached --quiet"])
    = true
  /\ exists s',
       git_push_main Recorded.subprocess_run_in
         (mkState
            ([Scripted.silent 0; Scripted.silent 0; Scripted.silent 1;
              Scripted.silent 0;
              Recorded.exited 128 EmptyString
                "fatal: unable to access the remote";
              Recorded.exited 128 EmptyString
                "fatal: unable to access the remote"], []) [] [])
         = (Ret true, s')
       /\ snd (world s')
            = ["git status"; "git add ."; "git diff --cached --quiet";
               commit_command; "git push origin medi-sync-ai-api";
               "git push --set-upstream origin medi-sync-ai-api"]
       /\ last (sys_stdout s') EmptyString =
            "[v0] Changes pushed to: https://github.com/Astronomox/OliveAIWEB".
Proof.
  split; [reflexivity |].
  destruct (push_failure_is_reported_as_success Recorded.World
              Recorded.subprocess_run_in
              (mkState
                 ([Scripted.silent 0; Scripted.silent 0; Scripted.silent 1;
                   Scripted.silent 0;
                   Recorded.exited 128 EmptyString
                     "fatal: unable to access the remote";
                   Recorded.exited 128 EmptyString
                     "fatal: unable to access the remote"], []) [] [])
              (mkCompleted 1 EmptyString EmptyString)
              ([Scripted.silent 0;
                Recorded.exited 128 EmptyString
                  "fatal: unable to access the remote";
                Recorded.exited 128 EmptyString
                  "fatal: unable to access the remote"],
               ["git status"; "git add ."; "git diff --cached --quiet"])
              eq_refl eq_refl ltac:(discriminate) eq_refl)
    as [s' [E [Hw [Hl _]]]].
  exists s'. split; [exact E |]. split; [rewrite Hw; reflexivity | exact Hl].
Defined.

Lemma git_push_exit_code_zero_iff_witness :
  git_diff Recorded.subprocess_run_in
    (staged_world Recorded.subprocess_run_in
       (world (mkState
                 ([Scripted.silent 0; Scripted.silent 0; Scripted.silent 1;
                   Recorded.exited 1 EmptyString
                     "error: gpg failed to sign the data"], []) [] [])))
    = (Scripted.silent 1,
       ([Recorded.exited 1 EmptyString "error: gpg failed to sign the data"],
        ["git status"; "git add ."; "git diff --cached --quiet"]))
  /\ git_push_exit_code Recorded.subprocess_run_in
       (mkState
          ([Scripted.silent 0; Scripted.silent 0; Scripted.silent 1;
            Recorded.exited 1 EmptyString
              "error: gpg failed to sign the data"], []) [] [])
     = 1%Z.
Proof.
  split; [reflexivity |].
  destruct (git_push_exit_code_zero_iff Recorded.World
              Recorded.subprocess_run_in
              (mkState
                 ([Scripted.silent 0; Scripted.silent 0; Scripted.silent 1;
                   Recorded.exited 1 EmptyString
                     "error: gpg failed to sign the data"], []) [] [])
              (mkCompleted 1 EmptyString EmptyString)
              ([Recorded.exited 1 EmptyString
                  "error: gpg failed to sign the data"],
               ["git status"; "git add ."; "git diff --cached --quiet"])
              eq_refl) as [Hiff [H0 | H1]].
  - apply Hiff in H0. destruct H0 as [_ [H | H]]; discriminate H.
  - exact H1.
Defined.

Lemma verify_build_stops_without_directory_witness :
  Recorded.os_chdir_missing "/vercel/share/v0-project"
    (world (mkState ([], []) [] []))
    = (Raise (mkExc FileNotFoundError
                "[Errno 2] No such file or directory: '/vercel/share/v0-project'"),
       ([], []))
  /\ verify_build Recorded.os_chdir_missing Recorded.subprocess_run_argv
       (mkState ([], []) [] [])
     = (Raise (mkExc FileNotFoundError
                 "[Errno 2] No such file or directory: '/vercel/share/v0-project'"),
        mkState ([], []) [] [])
  /\ verify_build_exit_code Recorded.os_chdir_missing
       Recorded.subprocess_run_argv (mkState ([], []) [] []) = 1%Z.
Proof.
  split; [reflexivity |].
  apply (verify_build_stops_without_directory Recorded.World
           Recorded.os_chdir_missing Recorded.subprocess_run_argv
           (mkState ([], []) [] [])
           (mkExc FileNotFoundError
              "[Errno 2] No such file or directory: '/vercel/share/v0-project'")
           ([], []) eq_refl).
Defined.

Lemma verify_build_does_not_catch_witness :
  Recorded.subprocess_run_argv ["npm"; "run"; "build"]
    ([Raise (mkExc FileNotFoundError
               "[Errno 2] No such file or directory: 'npm'")], [])
    = (Raise (mkExc FileNotFoundError
                "[Errno 2] No such file or directory: 'npm'"),
       ([], ["npm run build"]))
  /\ fst (verify_build Recorded.os_chdir Recorded.subprocess_run_argv
            (mkState
               ([Raise (mkExc FileNotFoundError
                          "[Errno 2] No such file or directory: 'npm'")], [])
               [] []))
     = Raise (mkExc FileNotFoundError
                "[Errno 2] No such file or directory: 'npm'")
  /\ verify_build_exit_code Recorded.os_chdir Recorded.subprocess_run_argv
       (mkState
          ([Raise (mkExc FileNotFoundError
                     "[Errno 2] No such file or directory: 'npm'")], [])
          [] []) = 1%Z.
Proof.
  split; [reflexivity |].
  destruct (verify_build_does_not_catch Recorded.World Recorded.os_chdir
              Recorded.subprocess_run_argv
              (mkState
                 ([Raise (mkExc FileNotFoundError
                            "[Errno 2] No such file or directory: 'npm'")],
                  []) [] [])
              ([Raise (mkExc FileNotFoundError
                         "[Errno 2] No such file or directory: 'npm'")], [])
              ([], ["npm run build"])
              (mkExc FileNotFoundError
                 "[Errno 2] No such file or directory: 'npm'")
              eq_refl eq_refl) as [E X].
  rewrite E. split; [reflexivity | exact X].
Defined.

Arguments run_command_full {World} subprocess_run_any print_raises
  cmd description _.
Arguments checks_then_full {World} subprocess_run_any print_raises {A}
  cs results k _.
Arguments io_ret {World A} a _.
Arguments header_printed {World} print_raises description w.
Arguments output_printed {World} print_raises p w.
Arguments report_printed {World} print_raises r w.
Arguments raised_in_try {World} subprocess_run_any print_raises cmd w e.
Arguments test_frontend_script {World} subprocess_run os_chdir _.
Arguments test_frontend_exit_code {World} subprocess_run os_chdir s.

(** ** The two embeddings of [run_command]

    On a console that takes every text and with a [subprocess.run] that
    raises nothing outside [Exception], [run_command_full] is
    [run_command]. *)
Lemma run_command_full_agrees (W : Type)
    (run : string -> Z -> W -> PyResult CompletedProcess * W)
    (cmd description : string) (s : State W) :
  run_command_full (lift_run run) takes_every_text cmd description s =
    (lift (fst (run_command run cmd description s)),
     snd (run_command run cmd description s)).
Proof.
  assert (Hh : header_printed (@takes_every_text W) description (world s))
    by (repeat constructor).
  rewrite (run_command_full_header W (lift_run run) takes_every_text
             cmd description s Hh).
  destruct (run cmd 60%Z (world s)) as [[p | e] w] eqn:H.
  - rewrite (run_command_completed W run cmd description s p w H).
    rewrite (try_block_completed W (lift_run run) takes_every_text cmd
               (printed s (test_header description)) p w).
    + cbn [fst snd lift]. unfold printed. cbn [world sys_stdout sys_stderr].
      now rewrite <- app_assoc.
    + unfold lift_run. cbn [world printed]. now rewrite H.
    + split; reflexivity.
  - rewrite (try_block_raising W (lift_run run) takes_every_text cmd
               (printed s (test_header description)) (derived e) w);
      [| unfold lift_run; cbn [world printed]; now rewrite H].
    rewrite handle_caught; [| apply derived_is_Exception | reflexivity].
    unfold handler_line, printed. cbn [world sys_stdout sys_stderr].
    change (isinstance_any (derived e) TimeoutExpired)
      with (isinstance e TimeoutExpired).
    destruct (isinstance e TimeoutExpired) eqn:Ht.
    + rewrite (run_command_timeout W run cmd description s e w H Ht).
      cbn [fst snd lift]. now rewrite <- app_assoc.
    + rewrite (run_command_exception W run cmd description s e w H Ht).
      cbn [fst snd lift]. now rewrite <- app_assoc.
Qed.

(** Once the module has entered the directory, the script is [main]: the
    process ends with the status [exit_code] gives from there. *)
Lemma script_after_chdir (W : Type)
    (run : string -> Z -> W -> PyResult CompletedProcess * W)
    (os_chdir : string -> W -> PyResult unit * W) (s : State W) (w : W) :
  os_chdir PROJECT_ROOT (world s) = (Ret tt, w) ->
  test_frontend_exit_code run os_chdir s =
    exit_code run (mkState w (sys_stdout s) (sys_stderr s)).
Proof.
  intro H. unfold test_frontend_exit_code, test_frontend_script, exit_code,
    bind, chdir.
  now rewrite H.
Qed.

(** C9 (as the code has it).  Two executions of a command that end with the
    same exit status, or with an exception of the same class, give the same
    boolean (or both none, where the class is not under [Exception])
    whenever the console takes what [run_command] prints in each of them:
    the header, and the captured text or the line of the [except] clause.
    Beyond that the captured text and the message of the exception do not
    matter. *)
Theorem same_control_same_boolean_when_printed
    (W1 W2 : Type)
    (run1 : string -> Z -> W1 -> PyOutcome CompletedProcess * W1)
    (console1 : Stream -> string -> W1 -> option BaseExc)
    (run2 : string -> Z -> W2 -> PyOutcome CompletedProcess * W2)
    (console2 : Stream -> string -> W2 -> option BaseExc)
    (cmd description : string) (s1 : State W1) (s2 : State W2) :
  header_printed console1 description (world s1) ->
  header_printed console2 description (world s2) ->
  control_any (fst (run1 cmd 60%Z (world s1))) =
    control_any (fst (run2 cmd 60%Z (world s2))) ->
  report_printed console1 (fst (run1 cmd 60%Z (world s1)))
    (snd (run1 cmd 60%Z (world s1))) ->
  report_printed console2 (fst (run2 cmd 60%Z (world s2)))
    (snd (run2 cmd 60%Z (world s2))) ->
  outcome_bool (fst (run_command_full run1 console1 cmd description s1)) =
    outcome_bool (fst (run_command_full run2 console2 cmd description s2)).
Proof.
  intros Hh1 Hh2 Hc Hr1 Hr2.
  rewrite (run_command_full_header W1 run1 console1 cmd description s1 Hh1).
  rewrite (run_command_full_header W2 run2 console2 cmd description s2 Hh2).
  destruct (run1 cmd 60%Z (world s1)) as [[p1 | e1] w1] eqn:H1;
    destruct (run2 cmd 60%Z (world s2)) as [[p2 | e2] w2] eqn:H2;
    cbn [fst snd control_any report_printed] in *; try discriminate Hc.
  - injection Hc as Hc.
    rewrite (try_block_completed W1 run1 console1 cmd
               (printed s1 (test_header description)) p1 w1 H1 Hr1).
    rewrite (try_block_completed W2 run2 console2 cmd
               (printed s2 (test_header description)) p2 w2 H2 Hr2).
    cbn [fst outcome_bool]. now rewrite Hc.
  - injection Hc as Hc.
    rewrite (try_block_raising W1 run1 console1 cmd
               (printed s1 (test_header description)) e1 w1 H1).
    rewrite (try_block_raising W2 run2 console2 cmd
               (printed s2 (test_header description)) e2 w2 H2).
    assert (He : isinstance_any e1 Exception = isinstance_any e2 Exception)
      by (unfold isinstance_any; now rewrite Hc).
    destruct (isinstance_any e2 Exception) eqn:E2.
    + rewrite handle_caught; [| exact He | exact Hr1].
      rewrite handle_caught; [| exact E2 | exact Hr2]. reflexivity.
    + rewrite (handle_uncaught W1 console1 _ _ He).
      rewrite (handle_uncaught W2 console2 _ _ E2). reflexivity.
Qed.

(** ** The amended claims: where the claims as stated fail *)

(** C2, as stated, fails where the console cannot take the captured text:
    run with an ASCII console, the check of [.env.local] exits 0 and prints
    a check mark; the [print] of it raises [UnicodeEncodeError] inside the
    [try], and [run_command] returns [False], which is what the driver
    stores. *)
Lemma exit_zero_recorded_as_failed :
  fst (Faulty.subprocess_run_any
         ("test -f .env.local && echo " ++ PyStr.dq ++ "✓ .env.local found"
          ++ PyStr.dq ++ " || echo " ++ PyStr.dq ++ "✗ .env.local missing"
          ++ PyStr.dq)
         60
         (world
            (mkState
               [Faulty.exited 0 ("✓ .env.local found" ++ PyStr.nl)
                  EmptyString]
               [] [])))
    = Faulty.exited 0 ("✓ .env.local found" ++ PyStr.nl) EmptyString
  /\ fst (run_command_full Faulty.subprocess_run_any Faulty.ascii_only
            ("test -f .env.local && echo " ++ PyStr.dq ++ "✓ .env.local found"
          ++ PyStr.dq ++ " || echo " ++ PyStr.dq ++ "✗ .env.local missing"
          ++ PyStr.dq)
            "Verifying environment configuration"
            (mkState
               [Faulty.exited 0 ("✓ .env.local found" ++ PyStr.nl)
                  EmptyString]
               [] []))
     = Returned false
  /\ fst (checks_then_full Faulty.subprocess_run_any Faulty.ascii_only
            [mkCheck "env_check"
               ("test -f .env.local && echo " ++ PyStr.dq ++ "✓ .env.local found"
          ++ PyStr.dq ++ " || echo " ++ PyStr.dq ++ "✗ .env.local missing"
          ++ PyStr.dq)
               "Verifying environment configuration"]
            [] io_ret
            (mkState
               [Faulty.exited 0 ("✓ .env.local found" ++ PyStr.nl)
                  EmptyString]
               [] []))
     = Returned [("env_check", false)].
Proof. vm_compute. repeat split. Qed.

(** C5, as stated, fails for an exception outside [Exception]: a
    [KeyboardInterrupt] that [subprocess.run] raises passes both [except]
    clauses and leaves [run_command]; the loop over the checks ends there,
    and the check after it is not run. *)
Lemma KeyboardInterrupt_leaves_run_command :
  fst (run_command_full Faulty.subprocess_run_any takes_every_text
         "npm run build 2>&1 | tail -50" "Building Next.js project"
         (mkState
            [Faulty.interrupted; Faulty.exited 0 EmptyString EmptyString]
            [] []))
    = Raising (mkBaseExc KeyboardInterrupt EmptyString)
  /\ fst (checks_then_full Faulty.subprocess_run_any takes_every_text
            [mkCheck "build" "npm run build 2>&1 | tail -50"
               "Building Next.js project";
             mkCheck "build_output" "test -d .next" "Verifying build output"]
            [] io_ret
            (mkState
               [Faulty.interrupted; Faulty.exited 0 EmptyString EmptyString]
               [] []))
     = Raising (mkBaseExc KeyboardInterrupt EmptyString)
  /\ world
       (snd (checks_then_full Faulty.subprocess_run_any takes_every_text
               [mkCheck "build" "npm run build 2>&1 | tail -50"
                  "Building Next.js project";
                mkCheck "build_output" "test -d .next"
                  "Verifying build output"]
               [] io_ret
               (mkState
                  [Faulty.interrupted;
                   Faulty.exited 0 EmptyString EmptyString]
                  [] [])))
     = [Faulty.exited 0 EmptyString EmptyString].
Proof. vm_compute. repeat split. Qed.


(** C9, as stated, fails where the console cannot take one of the captured
    texts: of two executions of the same command that both exit 0, the one
    whose stdout holds a check mark is turned into [False] by an ASCII
    console, the other into [True]. *)
Lemma same_status_different_boolean :
  control_any
    (fst (Faulty.subprocess_run_any
            ("test -f .env.local && echo " ++ PyStr.dq ++ "✓ .env.local found"
          ++ PyStr.dq ++ " || echo " ++ PyStr.dq ++ "✗ .env.local missing"
          ++ PyStr.dq)
            60
            [Faulty.exited 0 ("✓ .env.local found" ++ PyStr.nl)
               EmptyString]))
    = control_any
        (fst (Faulty.subprocess_run_any
                ("test -f .env.local && echo " ++ PyStr.dq ++ "✓ .env.local found"
          ++ PyStr.dq ++ " || echo " ++ PyStr.dq ++ "✗ .env.local missing"
          ++ PyStr.dq)
                60
                [Faulty.exited 0 (".env.local found" ++ PyStr.nl)
                   EmptyString]))
  /\ fst (run_command_full Faulty.subprocess_run_any Faulty.ascii_only
            ("test -f .env.local && echo " ++ PyStr.dq ++ "✓ .env.local found"
          ++ PyStr.dq ++ " || echo " ++ PyStr.dq ++ "✗ .env.local missing"
          ++ PyStr.dq)
            "Verifying environment configuration"
            (mkState
               [Faulty.exited 0 ("✓ .env.local found" ++ PyStr.nl)
                  EmptyString]
               [] []))
     = Returned false
  /\ fst (run_command_full Faulty.subprocess_run_any Faulty.ascii_only
            ("test -f .env.local && echo " ++ PyStr.dq ++ "✓ .env.local found"
          ++ PyStr.dq ++ " || echo " ++ PyStr.dq ++ "✗ .env.local missing"
          ++ PyStr.dq)
            "Verifying environment configuration"
            (mkState
               [Faulty.exited 0 (".env.local found" ++ PyStr.nl)
                  EmptyString]
               [] []))
     = Returned true.
Proof. vm_compute. repeat split. Qed.

(** ** The amended claims on concrete runs *)

Lemma exit_status_decides_when_output_is_printed_witness :
  header_printed Faulty.ascii_only "Running ESLint"
    (world (mkState
              [Faulty.exited 2 "3 problems (3 errors, 0 warnings)"
                 EmptyString] [] []))
  /\ Faulty.subprocess_run_any "npm run lint 2>&1 | head -50" 60
       (world (mkState
                 [Faulty.exited 2 "3 problems (3 errors, 0 warnings)"
                    EmptyString] [] []))
     = (Faulty.exited 2 "3 problems (3 errors, 0 warnings)" EmptyString, [])
  /\ output_printed Faulty.ascii_only
       (mkCompleted 2 "3 problems (3 errors, 0 warnings)" EmptyString) []
  /\ fst (run_command_full Faulty.subprocess_run_any Faulty.ascii_only
            "npm run lint 2>&1 | head -50" "Running ESLint"
            (mkState
               [Faulty.exited 2 "3 problems (3 errors, 0 warnings)"
                  EmptyString] [] []))
     = Returned false.
Proof.
  assert (Hh : header_printed Faulty.ascii_only "Running ESLint"
                 (world (mkState
                           [Faulty.exited 2
                              "3 problems (3 errors, 0 warnings)"
                              EmptyString] [] [])))
    by (repeat constructor).
  assert (Ho : output_printed Faulty.ascii_only
                 (mkCompleted 2 "3 problems (3 errors, 0 warnings)"
                    EmptyString) [])
    by (split; intros _; reflexivity).
  split; [exact Hh |]. split; [reflexivity |]. split; [exact Ho |].
  destruct (proj1 (exit_status_decides_when_output_is_printed Faulty.World
                     Faulty.subprocess_run_any Faulty.ascii_only
                     "npm run lint 2>&1 | head -50" "Running ESLint"
                     (mkState
                        [Faulty.exited 2 "3 problems (3 errors, 0 warnings)"
                           EmptyString] [] [])
                     (mkCompleted 2 "3 problems (3 errors, 0 warnings)"
                        EmptyString)
                     [] Hh eq_refl) Ho) as [s1 [E _]].
  rewrite E. reflexivity.
Defined.

Lemma run_command_full_catches_Exception_witness :
  header_printed (@takes_every_text Faulty.World)
    "Checking Node.js and npm installation"
    (world (mkState [Faulty.no_shell] [] []))
  /\ fst (run_command_full Faulty.subprocess_run_any takes_every_text
            "node --version && npm --version"
            "Checking Node.js and npm installation"
            (mkState [Faulty.no_shell] [] []))
     = Returned false.
Proof.
  assert (Hh : header_printed (@takes_every_text Faulty.World)
                 "Checking Node.js and npm installation"
                 (world (mkState [Faulty.no_shell] [] [])))
    by (repeat constructor).
  split; [exact Hh |].
  assert (Hexc : forall e,
            raised_in_try Faulty.subprocess_run_any takes_every_text
              "node --version && npm --version"
              (world (mkState [Faulty.no_shell] [] [])) e ->
            isinstance_any e Exception = true
            /\ takes_every_text Stdout (handler_line e)
                 (snd (Faulty.subprocess_run_any
                         "node --version && npm --version" 60
                         (world (mkState [Faulty.no_shell] [] [])))) = None).
  { intros e H. unfold raised_in_try in H. cbn in H. subst e.
    split; reflexivity. }
  destruct (proj1 (run_command_full_catches_Exception Faulty.World
                     Faulty.subprocess_run_any takes_every_text
                     "node --version && npm --version"
                     "Checking Node.js and npm installation"
                     (mkState [Faulty.no_shell] [] []) Hh Hexc))
    as [r [s1 [E _]]].
  rewrite E. cbn [fst]. f_equal.
  vm_compute in E. injection E as <- _. reflexivity.
Defined.


Lemma same_control_same_boolean_when_printed_witness :
  control_any
    (fst (Faulty.subprocess_run_any "node --version && npm --version" 60
            (world (mkState
                      [Faulty.exited 0 "v20.11.0" EmptyString] [] []))))
    = control_any
        (fst (Faulty.subprocess_run_any "node --version && npm --version" 60
                (world (mkState
                          [Faulty.exited 0 "v18.19.1"
                             "npm WARN old lockfile"] [] []))))
  /\ outcome_bool
       (fst (run_command_full Faulty.subprocess_run_any Faulty.ascii_only
               "node --version && npm --version"
               "Checking Node.js and npm installation"
               (mkState [Faulty.exited 0 "v20.11.0" EmptyString] [] [])))
     = outcome_bool
         (fst (run_command_full Faulty.subprocess_run_any Faulty.ascii_only
                 "node --version && npm --version"
                 "Checking Node.js and npm installation"
                 (mkState
                    [Faulty.exited 0 "v18.19.1" "npm WARN old lockfile"]
                    [] []))).
Proof.
  split; [reflexivity |].
  apply (same_control_same_boolean_when_printed Faulty.World Faulty.World
           Faulty.subprocess_run_any Faulty.ascii_only
           Faulty.subprocess_run_any Faulty.ascii_only
           "node --version && npm --version"
           "Checking Node.js and npm installation"
           (mkState [Faulty.exited 0 "v20.11.0" EmptyString] [] [])
           (mkState [Faulty.exited 0 "v18.19.1" "npm WARN old lockfile"]
              [] [])).
  - repeat constructor.
  - repeat constructor.
  - reflexivity.
  - split; intros _; reflexivity.
  - split; intros _; reflexivity.
Defined.
